(** * Readiness-gated startup and deployment verification (graphiti server)

    A shallow embedding of the orchestration logic of the repository:

    - [server/graph_service/startup.py]  : [wait_for_neo4j], [main]
    - [server/graph_service/main.py]     : [wait_for_neo4j], [lifespan]
    - [server/graph_service/healthcheck.py] : [check_health] and its script body
    - [verify_deployment.py]             : the four checks and [main]

    Python code that talks to the outside (sockets, HTTP, the logger, the
    clock) is written in a small monad [M]: a computation reads how many
    external calls were made before it, and yields an outcome (a value, a
    raised exception, or a [sys.exit]), the events it emitted in order, and
    the new number of external calls.  What the outside answers is an
    oracle indexed by the call number, so every theorem quantifies over
    every behaviour of the network.

    Conventions of the embedding:
    - a Python [str] is a [string]; each [ascii] is read as a code point
      below 256;
    - a Python [int] is a [Z];
    - the [float] delay of the retry loop is an IEEE-754 binary64 number
      ([PrimFloat]), multiplied and compared as the processor does; the
      loop is written over the operations it uses ([DelayOps]), which
      binary64 instantiates.  Counting theorems hold whatever the
      operations are; the theorems on the values of the delays are about
      binary64 and rest on the standard library's specification of its
      operations ([FloatAxioms]);
    - only exceptions deriving from [Exception] are modelled as raised
      values; [sys.exit] is a separate outcome, which [except Exception]
      does not catch. *)

From Stdlib Require Import ZArith QArith Qpower Qminmax Qabs Lqa Ascii String List Lia.
From Stdlib Require Import PrimFloat SpecFloat FloatOps FloatAxioms.
From stdpp Require Import base option list gmap strings.

Local Open Scope string_scope.
Local Open Scope Z_scope.

(** ** Python builtins used by the sources *)

Module Py.

(** [s.startswith(p)] *)
Definition startswith (s p : string) : bool := String.prefix p s.

(** [s[n:]] for [0 <= n]: the empty string when [s] is shorter. *)
Fixpoint slice_from (s : string) (n : nat) : string :=
  match n, s with
  | O, _ => s
  | S _, EmptyString => EmptyString
  | S n', String _ s' => slice_from s' n'
  end.

(** [c in s] for a one-character string [c]. *)
Fixpoint contains (c : ascii) (s : string) : bool :=
  match s with
  | EmptyString => false
  | String a s' => if Ascii.eqb a c then true else contains c s'
  end.

(** The cut at the first occurrence of [sep], if there is one. *)
Fixpoint cut (sep : ascii) (s : string) : option (string * string) :=
  match s with
  | EmptyString => None
  | String a s' =>
      if Ascii.eqb a sep then Some (EmptyString, s')
      else match cut sep s' with
           | Some (l, r) => Some (String a l, r)
           | None => None
           end
  end.

(** [s.split(sep, 1)] for a one-character [sep]: one or two pieces. *)
Definition split1 (s : string) (sep : ascii) : list string :=
  match cut sep s with
  | Some (l, r) => [l; r]
  | None => [s]
  end.

(** Whitespace for [str.strip()] ([str.isspace]) among code points below
    256: TAB..CR, FS..US, space, NEL and NBSP. *)
Definition isspace (a : ascii) : bool :=
  let n := nat_of_ascii a in
  ((9 <=? n) && (n <=? 13) || (28 <=? n) && (n <=? 32)
   || (n =? 133) || (n =? 160))%nat.

(** Whitespace skipped by [int(str)]: TAB..CR and space, and NEL and NBSP
    (which [int] first turns into spaces). *)
Definition int_space (a : ascii) : bool :=
  let n := nat_of_ascii a in
  ((9 <=? n) && (n <=? 13) || (n =? 32) || (n =? 133) || (n =? 160))%nat.

Fixpoint lstrip_by (sp : ascii -> bool) (s : string) : string :=
  match s with
  | EmptyString => EmptyString
  | String a s' => if sp a then lstrip_by sp s' else s
  end.

Fixpoint rstrip_by (sp : ascii -> bool) (s : string) : string :=
  match s with
  | EmptyString => EmptyString
  | String a s' =>
      match rstrip_by sp s' with
      | EmptyString => if sp a then EmptyString else String a EmptyString
      | t => String a t
      end
  end.

(** [s.strip()] *)
Definition strip (s : string) : string := rstrip_by isspace (lstrip_by isspace s).

Definition digit_of (a : ascii) : option Z :=
  let n := nat_of_ascii a in
  if ((48 <=? n) && (n <=? 57))%nat then Some (Z.of_nat n - 48) else None.

(** Digits of a decimal literal read left to right with accumulator
    [acc]; [prev_digit] tells whether the previous character was a digit,
    which is where a single underscore may stand. *)
Fixpoint digits (s : string) (acc : Z) (prev_digit : bool) : option Z :=
  match s with
  | EmptyString => if prev_digit then Some acc else None
  | String a s' =>
      match digit_of a with
      | Some d => digits s' (10 * acc + d) true
      | None =>
          if Ascii.eqb a "_" && prev_digit then
            match s' with
            | String b _ =>
                match digit_of b with
                | Some _ => digits s' acc false
                | None => None
                end
            | EmptyString => None
            end
          else None
      end
  end.

(** The interpreter's default limit on the number of digits of a decimal
    literal converted by [int] ([sys.get_int_max_str_digits()], CPython
    3.11 and the security releases of the earlier versions); the programs
    never change it. *)
Definition max_str_digits : Z := 4300.

(** Number of digit characters of a literal; underscores do not count,
    leading zeros do. *)
Fixpoint count_digits (s : string) : Z :=
  match s with
  | EmptyString => 0
  | String a s' =>
      match digit_of a with
      | Some _ => 1 + count_digits s'
      | None => count_digits s'
      end
  end.

(** The unsigned part of a literal: a well-formed digit string that does
    not exceed the limit on the number of digits. *)
Definition decimal (t : string) : option Z :=
  match digits t 0 false with
  | Some n => if max_str_digits <? count_digits t then None else Some n
  | None => None
  end.

(** [int(s)] in base 10: surrounding whitespace, an optional sign, then
    digits with single underscores between them, at most
    [max_str_digits] digits in all.  [None] is [ValueError], raised for a
    malformed literal and for one with too many digits alike.  (Below
    code point 256 the decimal digits are the ASCII ones.) *)
Definition int (s : string) : option Z :=
  match rstrip_by int_space (lstrip_by int_space s) with
  | String "-" t => Z.opp <$> decimal t
  | String "+" t => decimal t
  | t => decimal t
  end.

(** [range(n)] *)
Definition range (n : Z) : list Z := Z.of_nat <$> seq 0 (Z.to_nat n).

End Py.

(** ** Outcomes, events and the monad of effects *)

(** Exception classes, all deriving from [Exception]. *)
Inductive exception : Type :=
  | ValueError
  | OverflowError
  | OSError
  | gaierror
  | TimeoutError
  | HTTPError (status : Z)
  | URLError
  | ClientError
  | RuntimeError
  | KeyError.

(** How a computation ends: [return v], an uncaught exception, or
    [sys.exit(code)]. *)
Inductive outcome (A : Type) : Type :=
  | Return (v : A)
  | Raise (e : exception)
  | Exit (code : Z).
Arguments Return {A} v.
Arguments Raise {A} e.
Arguments Exit {A} code.

(** What the outside answers to one external call. *)
Inductive answer (R : Type) : Type :=
  | Gives (r : R)
  | Throws (e : exception).
Arguments Gives {R} r.
Arguments Throws {R} e.

(** The status with which the interpreter leaves when a script body ends
    this way. *)
Definition exit_status {A} (o : outcome A) : Z :=
  match o with
  | Return _ => 0
  | Raise _ => 1
  | Exit code => code
  end.

Inductive level : Type := INFO | WARNING | ERROR.

Section Effects.
Context {E : Type}.

Record run (A : Type) : Type := Run {
  value : outcome A;
  events : list E;
  ncalls : nat;
}.

Definition M (A : Type) : Type := nat -> run A.

Definition ret {A} (v : A) : M A := fun n => Run A (Return v) [] n.

Definition bind {A B} (m : M A) (k : A -> M B) : M B := fun n =>
  let r := m n in
  match value A r with
  | Return v =>
      let r' := k v (ncalls A r) in
      Run B (value B r') (events A r ++ events B r') (ncalls B r')
  | Raise e => Run B (Raise e) (events A r) (ncalls A r)
  | Exit c => Run B (Exit c) (events A r) (ncalls A r)
  end.

Definition raise {A} (e : exception) : M A := fun n => Run A (Raise e) [] n.

(** [sys.exit(code)] *)
Definition sys_exit {A} (code : Z) : M A := fun n => Run A (Exit code) [] n.

Definition emit (ev : E) : M unit := fun n => Run unit (Return tt) [ev] n.

(** One external call: the event is recorded, the oracle is asked for
    the call's number, and the number of calls grows by one. *)
Definition external {R} (ev : E) (oracle : nat -> answer R) : M R := fun n =>
  match oracle n with
  | Gives r => Run R (Return r) [ev] (S n)
  | Throws e => Run R (Raise e) [ev] (S n)
  end.

(** [try: body  except Exception as e: handler e] *)
Definition try_except {A} (body : M A) (handler : exception -> M A) : M A := fun n =>
  let r := body n in
  match value A r with
  | Raise e =>
      let r' := handler e (ncalls A r) in
      Run A (value A r') (events A r ++ events A r') (ncalls A r')
  | _ => r
  end.

(** [for x in xs: acc = body x acc] *)
Fixpoint for_in {X S} (xs : list X) (body : X -> S -> M S) (acc : S) : M S :=
  match xs with
  | [] => ret acc
  | x :: xs' => bind (body x acc) (for_in xs' body)
  end.

End Effects.

Arguments run : clear implicits.
Arguments M : clear implicits.
Arguments Run {E A} value events ncalls.
Arguments value {E A} r.
Arguments events {E A} r.
Arguments ncalls {E A} r.

#[global] Instance M_ret {E} : MRet (M E) := fun A => @ret E A.
#[global] Instance M_bind {E} : MBind (M E) := fun A B k m => @bind E A B m k.

(** An entry point starts with no external call made. *)
Definition start {E A} (m : M E A) : run E A := m O.

(** ** The retry delay *)

(** The operations the retry loop performs on [retry_delay]; the programs
    run them on binary64 numbers ([float_delay]). *)
Class DelayOps (D : Type) : Type := {
  lit_2_0 : D;              (* the default [retry_delay: float = 2.0] *)
  lit_1_2 : D;              (* the literal [1.2] *)
  lit_10 : D;               (* the literal [10] *)
  dmul : D -> D -> D;       (* [*] *)
  dlt : D -> D -> bool;     (* [<] *)
}.

(** Python's two-argument [min(a, b)]: [b] when [b < a], otherwise [a]. *)
Definition py_min `{DelayOps D} (a b : D) : D := if dlt b a then b else a.

(** IEEE-754 binary64, the [float] of Python:
    [0x1.3333333333333p+0] is the double nearest to 1.2, and the [int] 10
    multiplies and compares as the double 10.0. *)
#[global] Instance float_delay : DelayOps float := {|
  lit_2_0 := 2%float;
  lit_1_2 := 0x1.3333333333333p+0%float;
  lit_10 := 10%float;
  dmul := PrimFloat.mul;
  dlt := PrimFloat.ltb;
|}.

(** ** Events of the server programs *)

(** An argument interpolated in a message. *)
Inductive arg : Type :=
  | AStr (s : string)
  | AInt (z : Z)
  | ABool (b : bool)
  | AExc (e : exception).

Inductive event (D : Type) : Type :=
  | Log (lvl : level) (template : string) (args : list arg)
  | Connect (host : string) (port : Z)
  | Sleep (d : D)
  | Call (name : string)
  | Yield.
Arguments Log {D} lvl template args.
Arguments Connect {D} host port.
Arguments Sleep {D} d.
Arguments Call {D} name.
Arguments Yield {D}.

Definition is_connect {D} (ev : event D) : bool :=
  match ev with Connect _ _ => true | _ => false end.

Definition is_warning {D} (ev : event D) : bool :=
  match ev with Log WARNING _ _ => true | _ => false end.

Definition slept {D} (ev : event D) : option D :=
  match ev with Sleep d => Some d | _ => None end.

(** The number of TCP probes in a trace. *)
Definition probes {D} (tr : list (event D)) : nat := length (List.filter is_connect tr).

(** The number of warnings logged in a trace. *)
Definition warnings {D} (tr : list (event D)) : nat := length (List.filter is_warning tr).

(** The delays slept in a trace, in order. *)
Definition sleeps {D} (tr : list (event D)) : list D := omap slept tr.

(** ** [server/graph_service/startup.py] *)

Module Startup.
Section Program.
Context `{DelayOps D}.

(** The outside: what the k-th TCP probe yields (the result of
    [connect_ex], or an exception of [socket()], [settimeout],
    [connect_ex] or [close]), and how the body of the last [try] ends (the
    two imports and [uvicorn.run]). *)
Variable sock : nat -> answer Z.
Variable uvicorn_run : answer unit.

Abbreviation M := (M (event D)).

(** Lines 26-34: host and port from the URI. *)
Definition extract_host_port (uri : string) : exception + (string * Z) :=
  let uri := if Py.startswith uri "bolt://" then Py.slice_from uri 6 else uri in
  if Py.contains ":" uri then
    match Py.split1 uri ":" with
    | [host; port_str] =>
        match Py.int port_str with
        | Some port => inr (host, port)
        | None => inl ValueError
        end
    | _ => inl ValueError
    end
  else inr (uri, 7687).

(** Lines 40-43: one socket, a 5 s timeout, [connect_ex], [close]. *)
Definition connect_ex (host : string) (port : Z) : M Z :=
  external (Connect host port) sock.

(** Lines 38-59: the iterations of [for attempt in range(max_retries)]
    still to run, then the code after the loop. *)
Fixpoint attempts (rng : list Z) (host : string) (port : Z)
    (max_retries : Z) (retry_delay : D) : M bool :=
  match rng with
  | [] =>
      emit (Log ERROR "Neo4j failed to become ready after all retries" []);;
      mret false
  | attempt :: rng' =>
      returned ← try_except
        (result ← connect_ex host port;
         if result =? 0 then
           emit (Log INFO "Neo4j is ready at {host}:{port}" [AStr host; AInt port]);;
           mret (Some true)
         else
           emit (Log WARNING "Neo4j not ready (attempt {attempt + 1}/{max_retries})"
                     [AInt (attempt + 1); AInt max_retries]);;
           mret None)
        (fun e =>
           emit (Log WARNING "Connection attempt failed (attempt {attempt + 1}/{max_retries}): {e}"
                     [AInt (attempt + 1); AInt max_retries; AExc e]);;
           mret None);
      match returned with
      | Some b => mret b
      | None =>
          if attempt <? max_retries - 1 then
            emit (Sleep retry_delay);;
            attempts rng' host port max_retries (py_min (dmul retry_delay lit_1_2) lit_10)
          else
            attempts rng' host port max_retries retry_delay
      end
  end.

(** Lines 21-59. *)
Definition wait_for_neo4j (uri : string) (max_retries : Z) (retry_delay : D) : M bool :=
  match extract_host_port uri with
  | inl e => raise e
  | inr (host, port) =>
      emit (Log INFO "Waiting for Neo4j at {host}:{port}" [AStr host; AInt port]);;
      attempts (Py.range max_retries) host port max_retries retry_delay
  end.

(** Lines 62-90; [neo4j_uri] is [os.getenv('NEO4J_URI', 'bolt://neo4j:7687')]. *)
Definition main (neo4j_uri : string) : M unit :=
  emit (Log INFO "Starting Graphiti Knowledge Server initialization" []);;
  ready ← wait_for_neo4j neo4j_uri 30 lit_2_0;
  (if negb ready then
     emit (Log ERROR "Failed to connect to Neo4j, exiting" []);;
     sys_exit 1
   else mret tt);;
  emit (Log INFO "Neo4j is ready, starting server" []);;
  try_except
    (external (Call "uvicorn.run") (fun _ => uvicorn_run))
    (fun e =>
       emit (Log ERROR "Failed to start server: {e}" [AExc e]);;
       sys_exit 1).

End Program.
End Startup.

(** ** [server/graph_service/main.py] *)

Module Main.
Section Program.
Context `{DelayOps D}.

(** The outside: the TCP probes, and how [initialize_graphiti(settings)]
    ends. *)
Variable sock : nat -> answer Z.
Variable initialize_graphiti : answer unit.

Abbreviation M := (M (event D)).

(** Lines 22-30. *)
Definition extract_host_port (uri : string) : exception + (string * Z) :=
  let uri := if Py.startswith uri "bolt://" then Py.slice_from uri 6 else uri in
  if Py.contains ":" uri then
    match Py.split1 uri ":" with
    | [host; port_str] =>
        match Py.int port_str with
        | Some port => inr (host, port)
        | None => inl ValueError
        end
    | _ => inl ValueError
    end
  else inr (uri, 7687).

(** Lines 36-39. *)
Definition connect_ex (host : string) (port : Z) : M Z :=
  external (Connect host port) sock.

(** Lines 34-55. *)
Fixpoint attempts (rng : list Z) (host : string) (port : Z)
    (max_retries : Z) (retry_delay : D) : M bool :=
  match rng with
  | [] =>
      emit (Log ERROR "Neo4j failed to become ready after all retries" []);;
      mret false
  | attempt :: rng' =>
      returned ← try_except
        (result ← connect_ex host port;
         if result =? 0 then
           emit (Log INFO "Neo4j is ready at {host}:{port}" [AStr host; AInt port]);;
           mret (Some true)
         else
           emit (Log WARNING "Neo4j not ready (attempt {attempt + 1}/{max_retries})"
                     [AInt (attempt + 1); AInt max_retries]);;
           mret None)
        (fun e =>
           emit (Log WARNING "Connection attempt failed (attempt {attempt + 1}/{max_retries}): {e}"
                     [AInt (attempt + 1); AInt max_retries; AExc e]);;
           mret None);
      match returned with
      | Some b => mret b
      | None =>
          if attempt <? max_retries - 1 then
            emit (Sleep retry_delay);;
            attempts rng' host port max_retries (py_min (dmul retry_delay lit_1_2) lit_10)
          else
            attempts rng' host port max_retries retry_delay
      end
  end.

(** Lines 17-55. *)
Definition wait_for_neo4j (uri : string) (max_retries : Z) (retry_delay : D) : M bool :=
  match extract_host_port uri with
  | inl e => raise e
  | inr (host, port) =>
      emit (Log INFO "Waiting for Neo4j at {host}:{port}" [AStr host; AInt port]);;
      attempts (Py.range max_retries) host port max_retries retry_delay
  end.

(** Lines 58-79.  [neo4j_uri] is [get_settings().neo4j_uri]
    ([graph_service.config] is a collaborator outside the sources).  The
    generator's single [yield] hands control to the server: the event
    [Yield] marks the application as serving, and what follows it runs at
    shutdown. *)
Definition lifespan (neo4j_uri : string) : M unit :=
  ready ← wait_for_neo4j neo4j_uri 30 lit_2_0;
  (if negb ready then
     emit (Log ERROR "Failed to connect to Neo4j, but continuing startup" [])
   else mret tt);;
  try_except
    (external (Call "initialize_graphiti") (fun _ => initialize_graphiti);;
     emit (Log INFO "Graphiti initialized successfully" []))
    (fun e =>
       emit (Log ERROR "Failed to initialize Graphiti: {e}" [AExc e]));;
  emit Yield;;
  emit (Log INFO "Shutting down Graphiti server" []).

End Program.
End Main.

(** ** Events of the HTTP tools *)

Inductive tool_event : Type :=
  | TLog (lvl : level) (template : string) (args : list arg)
  | Print (template : string) (args : list arg)
  | Get (url : string).

(** ** [server/graph_service/healthcheck.py] *)

Module Healthcheck.
Section Program.

(** The outside: the final status the server answers to the GET, or the
    failure of the connection. *)
Variable target : answer Z.

Abbreviation M := (M tool_event).

(** [urllib.request.urlopen(url, timeout=5)] followed by [getcode()]: a
    final status outside 200..299 is raised as [HTTPError]. *)
Definition urlopen_getcode (url : string) : M Z :=
  status ← external (Get url) (fun _ => target);
  if (200 <=? status) && (status <? 300) then mret status
  else raise (HTTPError status).

(** Lines 9-21. *)
Definition check_health : M bool :=
  try_except
    (code ← urlopen_getcode "http://localhost:8000/healthcheck";
     if code =? 200 then
       emit (Print "Server is healthy" []);;
       mret true
     else
       emit (Print "Server returned status code: {response.getcode()}" [AInt code]);;
       mret false)
    (fun e =>
       emit (Print "Health check failed: {e}" [AExc e]);;
       mret false).

(** Lines 23-27: the script body. *)
Definition script : M unit :=
  healthy ← check_health;
  if healthy : bool then sys_exit 0 else sys_exit 1.

End Program.
End Healthcheck.

(** ** [verify_deployment.py] *)

Module Verify.

(** [d[k]]: [KeyError] when the key is absent. *)
Definition getitem {V} (d : gmap string V) (k : string) : M tool_event V :=
  match d !! k with
  | Some v => mret v
  | None => raise KeyError
  end.

(** [all(d.values())] *)
Definition all_values (d : gmap string bool) : bool :=
  forallb id (map_to_list d).*2.

Definition overall_template : string :=
  "\nOverall Status: {'✓ DEPLOYMENT SUCCESSFUL' if overall_ok else '✗ DEPLOYMENT ISSUES DETECTED'}".

Definition overall_of (ev : tool_event) : option bool :=
  match ev with
  | TLog INFO template [ABool b] =>
      if String.eqb template overall_template then Some b else None
  | _ => None
  end.

(** The composite result a run reports: its last "Overall Status" line. *)
Definition overall_status (tr : list tool_event) : option bool :=
  last (omap overall_of tr).

Section Program.

(** The outside: the process environment ([os.getenv]) and what the k-th
    HTTP GET yields (the response status, or an exception of the session,
    the request or the 10 s timeout). *)
Variable environ : gmap string string.
Variable net : nat -> answer Z.

Abbreviation M := (M tool_event).

(** [async with session.get(url, timeout=10) as response: response.status] *)
Definition get_status (url : string) : M Z := external (Get url) net.

(** Lines 18-33. *)
Definition check_neo4j_connection (uri user password : string) : M bool :=
  try_except
    (emit (TLog INFO "Checking Neo4j connection to {uri}" [AStr uri]);;
     if negb (Py.startswith uri "bolt://") then
       emit (TLog ERROR "Invalid Neo4j URI format: {uri}" [AStr uri]);;
       mret false
     else
       emit (TLog INFO "Neo4j URI format is valid" []);;
       mret true)
    (fun e =>
       emit (TLog ERROR "Neo4j connection check failed: {e}" [AExc e]);;
       mret false).

(** Lines 36-49. *)
Definition check_server_health (url : string) : M bool :=
  try_except
    (status ← get_status (url ++ "/healthcheck");
     if status =? 200 then
       emit (TLog INFO "Server health check passed: {url}" [AStr url]);;
       mret true
     else
       emit (TLog ERROR "Server health check failed with status {response.status}: {url}"
                  [AInt status; AStr url]);;
       mret false)
    (fun e =>
       emit (TLog ERROR "Server health check failed: {url} - {e}" [AStr url; AExc e]);;
       mret false).

(** Lines 52-74. *)
Definition check_api_endpoints (base_url : string) : M (gmap string bool) :=
  let endpoints := [("root", "/"); ("healthcheck", "/healthcheck")] in
  for_in endpoints
    (fun '(name, endpoint) results =>
       try_except
         (status ← get_status (base_url ++ endpoint);
          let results := <[name := status =? 200]> results in
          (if status =? 200 then
             emit (TLog INFO "Endpoint {name} is accessible" [AStr name])
           else
             emit (TLog WARNING "Endpoint {name} returned status {response.status}"
                        [AStr name; AInt status]));;
          mret results)
         (fun e =>
            emit (TLog ERROR "Endpoint {name} check failed: {e}" [AStr name; AExc e]);;
            mret (<[name := false]> results)))
    ∅.

(** Lines 77-111. *)
Definition check_environment_variables : M (gmap string bool) :=
  let required_vars := ["OPENAI_API_KEY"; "NEO4J_USER"; "NEO4J_PASSWORD"] in
  let optional_vars := ["MODEL_NAME"; "EMBEDDING_MODEL_NAME"; "SEMAPHORE_LIMIT"] in
  results ← for_in required_vars
    (fun var results =>
       let value := environ !! var in
       let results :=
         <[var := match value with
                  | Some v => negb (String.eqb (Py.strip v) "")
                  | None => false
                  end]> results in
       is_set ← getitem results var;
       (if is_set : bool then
          emit (TLog INFO "Required environment variable {var} is set" [AStr var])
        else
          emit (TLog ERROR "Required environment variable {var} is missing or empty" [AStr var]));;
       mret results)
    ∅;
  for_in optional_vars
    (fun var results =>
       let value := environ !! var in
       let results :=
         <[var := match value with
                  | Some v => negb (String.eqb (Py.strip v) "")
                  | None => false
                  end]> results in
       is_set ← getitem results var;
       (if is_set : bool then
          emit (TLog INFO "Optional environment variable {var} is set: {value}"
                     [AStr var; AStr (default "" value)])
        else
          emit (TLog WARNING "Optional environment variable {var} is not set (using default)"
                     [AStr var]));;
       mret results)
    results.

(** Lines 114-170. *)
Definition main : M Z :=
  emit (TLog INFO "Starting Graphiti deployment verification" []);;
  env_check ← check_environment_variables;
  let neo4j_uri := default "bolt://neo4j:7687" (environ !! "NEO4J_URI") in
  let neo4j_user := default "neo4j" (environ !! "NEO4J_USER") in
  let neo4j_password := default "" (environ !! "NEO4J_PASSWORD") in
  neo4j_ok ← check_neo4j_connection neo4j_uri neo4j_user neo4j_password;
  let server_url := "http://localhost:8000" in
  server_health ← check_server_health server_url;
  api_endpoints ← check_api_endpoints server_url;
  emit (TLog INFO "\n==================================================" []);;
  emit (TLog INFO "DEPLOYMENT VERIFICATION SUMMARY" []);;
  emit (TLog INFO "==================================================" []);;
  let required_env_ok :=
    forallb (fun var => default false (env_check !! var))
            ["OPENAI_API_KEY"; "NEO4J_USER"; "NEO4J_PASSWORD"] in
  emit (TLog INFO "Environment Variables: {'✓' if required_env_ok else '✗'}"
             [ABool required_env_ok]);;
  emit (TLog INFO "Neo4j Connection: {'✓' if neo4j_ok else '✗'}" [ABool neo4j_ok]);;
  emit (TLog INFO "Server Health: {'✓' if server_health else '✗'}" [ABool server_health]);;
  let api_ok := all_values api_endpoints in
  emit (TLog INFO "API Endpoints: {'✓' if api_ok else '✗'}" [ABool api_ok]);;
  let overall_ok := required_env_ok && neo4j_ok && server_health && api_ok in
  emit (TLog INFO overall_template [ABool overall_ok]);;
  (if negb overall_ok then
     emit (TLog INFO "\nTroubleshooting steps:" []);;
     (if negb required_env_ok then
        emit (TLog INFO "- Check that all required environment variables are set" [])
      else mret tt);;
     (if negb neo4j_ok then
        emit (TLog INFO "- Verify Neo4j is running and accessible" [])
      else mret tt);;
     (if negb server_health then
        emit (TLog INFO "- Check that the Graphiti server is running on port 8000" [])
      else mret tt);;
     (if negb api_ok then
        emit (TLog INFO "- Verify API endpoints are responding correctly" [])
      else mret tt)
   else mret tt);;
  mret (if overall_ok then 0 else 1).

(** Lines 173-175: the script body. *)
Definition script : M unit :=
  exit_code ← main;
  sys_exit exit_code.

End Program.
End Verify.

(** ** Vocabulary of the statements *)

Section Backoff.
Context `{DelayOps D}.

(** The update of [retry_delay] at the end of an iteration:
    [min(retry_delay * 1.2, 10)]. *)
Definition next_delay (d : D) : D := py_min (dmul d lit_1_2) lit_10.

(** The first [k] delays of the backoff sequence that starts at [d]. *)
Fixpoint delays (d : D) (k : nat) : list D :=
  match k with
  | O => []
  | S k' => d :: delays (next_delay d) k'
  end.

(** The delay in force after [i] updates. *)
Definition delay_after (d0 : D) (i : nat) : D := Nat.iter i next_delay d0.

End Backoff.

(** Each binary64 number of the list is at most the next one. *)
Definition nondecreasing_b64 (l : list float) : bool :=
  forallb (fun p => PrimFloat.leb (fst p) (snd p)) (zip l (tail l)).

(** A call to an opaque collaborator. *)
Definition is_call {D} (ev : event D) : bool :=
  match ev with Call _ => true | _ => false end.

(** A probe succeeds when [connect_ex] returns 0. *)
Definition probe_ok (a : answer Z) : bool :=
  match a with
  | Gives 0 => true
  | _ => false
  end.

(** The first successful probe among calls [c], [c+1], ..., [c+n-1],
    counted from [c]. *)
Fixpoint first_ok (sock : nat -> answer Z) (c n : nat) : option nat :=
  match n with
  | O => None
  | S n' => if probe_ok (sock c) then Some O else S <$> first_ok sock (S c) n'
  end.

(** The number of probes a loop of [n] iterations makes from call [c] on. *)
Definition attempts_made (sock : nat -> answer Z) (c n : nat) : nat :=
  match first_ok sock c n with
  | Some j => S j
  | None => n
  end.

(** Whether one of these probes succeeds. *)
Definition succeeds (sock : nat -> answer Z) (c n : nat) : bool :=
  match first_ok sock c n with
  | Some _ => true
  | None => false
  end.

(** A GET succeeds when the status is 200. *)
Definition is_200 (a : answer Z) : bool :=
  match a with
  | Gives status => status =? 200
  | Throws _ => false
  end.

(** An environment variable is present and not blank. *)
Definition var_set (environ : gmap string string) (var : string) : bool :=
  match environ !! var with
  | Some v => negb (String.eqb (Py.strip v) "")
  | None => false
  end.

(** The composite result in the words of the specification: all required
    environment checks, and the dependency URI has the scheme prefix, and
    the liveness check (the first GET), and all endpoint checks (the second
    and third GET). *)
Definition composite_result (environ : gmap string string) (net : nat -> answer Z) : bool :=
  forallb (var_set environ) ["OPENAI_API_KEY"; "NEO4J_USER"; "NEO4J_PASSWORD"]
  && Py.startswith (default "bolt://neo4j:7687" (environ !! "NEO4J_URI")) "bolt://"
  && is_200 (net 0%nat)
  && forallb is_200 [net 1%nat; net 2%nat].

(** The dictionary [check_environment_variables] builds. *)
Definition env_results (environ : gmap string string) : gmap string bool :=
  foldl (fun m var => <[var := var_set environ var]> m) ∅
    ["OPENAI_API_KEY"; "NEO4J_USER"; "NEO4J_PASSWORD";
     "MODEL_NAME"; "EMBEDDING_MODEL_NAME"; "SEMAPHORE_LIMIT"].

(** A run that comes after the events [evs]. *)
Definition prepend {E A} (evs : list E) (r : run E A) : run E A :=
  Run (value r) (evs ++ events r)%list (ncalls r).

(** ** [test_deployment.py] *)

Inductive test_event : Type :=
  | Printed (template : string) (args : list arg)
  | Requested (url : string)
  | Paused (seconds : Z).

Module TestDeployment.
Section Program.

(** The outside: what the k-th [requests.get(url, timeout=10)] yields (the
    status code of the final response, or an exception of the request). *)
Variable net : nat -> answer Z.

Abbreviation M := (M test_event).

(** Lines 10-22. *)
Definition test_endpoint (url description : string) : M bool :=
  try_except
    (status_code ← external (Requested url) net;
     if status_code =? 200 then
       emit (Printed "✓ {description}: {url}" [AStr description; AStr url]);;
       mret true
     else
       emit (Printed "✗ {description}: {url} (status: {response.status_code})"
                     [AStr description; AStr url; AInt status_code]);;
       mret false)
    (fun e =>
       emit (Printed "✗ {description}: {url} (error: {e})"
                     [AStr description; AStr url; AExc e]);;
       mret false).

(** Lines 24-49. *)
Definition main : M Z :=
  emit (Printed "Testing Graphiti deployment..." []);;
  let endpoints :=
    [("http://localhost:8000/", "Root endpoint");
     ("http://localhost:8000/healthcheck", "Health check")] in
  let success_count := 0 in
  let total_count := Z.of_nat (length endpoints) in
  success_count ← for_in endpoints
    (fun '(url, description) success_count =>
       ok ← test_endpoint url description;
       let success_count := if ok : bool then success_count + 1 else success_count in
       emit (Paused 1);;
       mret success_count)
    success_count;
  emit (Printed "\nResults: {success_count}/{total_count} endpoints working"
                [AInt success_count; AInt total_count]);;
  if success_count =? total_count then
    emit (Printed "✓ Deployment is working correctly!" []);;
    mret 0
  else
    emit (Printed "✗ Some endpoints are not working" []);;
    mret 1.

(** Lines 51-52: the script body. *)
Definition script : M unit :=
  code ← main;
  sys_exit code.

End Program.
End TestDeployment.

(** ** Further vocabulary *)

(** Every event a computation emits satisfies [P], from whatever call
    number it starts. *)
Definition emits {E A} (P : E -> Prop) (m : M E A) : Prop :=
  forall n, Forall P (events (m n)).

(** The events the retry loop may emit for the address [host]:[port]: log
    lines, probes of that address, and sleeps. *)
Definition driver_event {D} (host : string) (port : Z) (ev : event D) : Prop :=
  match ev with
  | Log _ _ _ => True
  | Connect h p => h = host /\ p = port
  | Sleep _ => True
  | Call _ => False
  | Yield => False
  end.

(** The attempt number and the total carried by each warning of a trace. *)
Definition attempt_numbers {D} (tr : list (event D)) : list (Z * Z) :=
  omap (fun ev => match ev with
                  | Log WARNING _ (AInt attempt :: AInt total :: _) => Some (attempt, total)
                  | _ => None
                  end) tr.

(** The real number a finite binary64 number stands for: mantissa times
    a power of two. *)
Definition SF2Q (x : spec_float) : option Q :=
  match x with
  | S754_zero _ => Some 0%Q
  | S754_finite s m e => Some (inject_Z (if s then Zneg m else Zpos m) * 2 ^ e)%Q
  | _ => None
  end.

Definition float_value (x : float) : option Q := SF2Q (Prim2SF x).

(** The time slept in all: the sum of the real values of the delays. *)
Fixpoint total_value (l : list float) : option Q :=
  match l with
  | [] => Some 0%Q
  | x :: l' =>
      match float_value x, total_value l' with
      | Some q, Some t => Some (q + t)%Q
      | _, _ => None
      end
  end.

(** The closed form of the specification, over the rationals:
    min(initial_delay * 1.2^i, 10). *)
Definition closed_form (d0 : Q) (i : nat) : Q := Qmin (d0 * (6 # 5) ^ Z.of_nat i) 10.

(** The delays of the default policy before the cap is reached, as
    binary64 numbers: 2.0, 2.4, 2.88, 3.456, 4.1472, 4.97664,
    5.9719679999999995, 7.166361599999999, 8.599633919999999. *)
Definition default_delays : list float :=
  [2; 0x1.3333333333333p+1; 0x1.70a3d70a3d70ap+1; 0x1.ba5e353f7ced9p+1;
   0x1.096bb98c7e282p+2; 0x1.3e81450efdc9cp+2; 0x1.7e34b945308bbp+2;
   0x1.caa5ab1fd3dadp+2; 0x1.133033797f1cep+3]%float.

(** The string is empty or made of whitespace only. *)
Fixpoint blank (s : string) : bool :=
  match s with
  | EmptyString => true
  | String a s' => Py.isspace a && blank s'
  end.

(** The URLs of the GETs of a trace, in order. *)
Definition gets (tr : list tool_event) : list string :=
  omap (fun ev => match ev with Get url => Some url | _ => None end) tr.

Definition is_tlog (ev : tool_event) : Prop :=
  match ev with TLog _ _ _ => True | _ => False end.

(** The report that ends a verification run, from the results of the four
    categories: the banner, one line per category, the overall status, and
    when it is false the troubleshooting header with one hint per failed
    category. *)
Definition report (required_env_ok neo4j_ok server_health api_ok : bool)
    : list tool_event :=
  [TLog INFO "\n==================================================" [];
   TLog INFO "DEPLOYMENT VERIFICATION SUMMARY" [];
   TLog INFO "==================================================" [];
   TLog INFO "Environment Variables: {'✓' if required_env_ok else '✗'}"
        [ABool required_env_ok];
   TLog INFO "Neo4j Connection: {'✓' if neo4j_ok else '✗'}" [ABool neo4j_ok];
   TLog INFO "Server Health: {'✓' if server_health else '✗'}" [ABool server_health];
   TLog INFO "API Endpoints: {'✓' if api_ok else '✗'}" [ABool api_ok];
   TLog INFO Verify.overall_template
        [ABool (required_env_ok && neo4j_ok && server_health && api_ok)]]
  ++ (if required_env_ok && neo4j_ok && server_health && api_ok then []
      else
        [TLog INFO "\nTroubleshooting steps:" []]
        ++ (if required_env_ok then []
            else [TLog INFO "- Check that all required environment variables are set" []])
        ++ (if neo4j_ok then []
            else [TLog INFO "- Verify Neo4j is running and accessible" []])
        ++ (if server_health then []
            else [TLog INFO "- Check that the Graphiti server is running on port 8000" []])
        ++ (if api_ok then []
            else [TLog INFO "- Verify API endpoints are responding correctly" []]))%list.

(** The URLs requested and the pauses of a trace of [test_deployment.py]. *)
Definition requested (tr : list test_event) : list string :=
  omap (fun ev => match ev with Requested url => Some url | _ => None end) tr.

Definition pauses (tr : list test_event) : list Z :=
  omap (fun ev => match ev with Paused seconds => Some seconds | _ => None end) tr.

Definition printed (tr : list test_event) : list (string * list arg) :=
  omap (fun ev => match ev with Printed t a => Some (t, a) | _ => None end) tr.

(** * Properties *)

(** ** The retry loop of [startup.py] *)

Section Driver.
Context `{DelayOps D}.
Variable sock : nat -> answer Z.
Variables (host : string) (port : Z).

Local Abbreviation attempts := (Startup.attempts (D:=D) sock).

Lemma attempts_nil mx d c :
  attempts [] host port mx d c
  = Run (Return false)
        [Log ERROR "Neo4j failed to become ready after all retries" []] c.
Proof. reflexivity. Qed.

Lemma attempts_ok a rng mx d c :
  probe_ok (sock c) = true ->
  attempts (a :: rng) host port mx d c
  = Run (Return true)
        [Connect host port;
         Log INFO "Neo4j is ready at {host}:{port}" [AStr host; AInt port]]
        (S c).
Proof.
  intros Hok. cbn.
  unfold mbind, M_bind, bind, try_except, Startup.connect_ex, external. cbn.
  destruct (sock c) as [code|e]; cbn in *; [|discriminate].
  destruct code; cbn in *; try discriminate. reflexivity.
Qed.

Lemma attempts_ko a rng mx d c :
  probe_ok (sock c) = false ->
  exists w, is_warning w = true /\
    attempts (a :: rng) host port mx d c
    = let sleep := a <? mx - 1 in
      let rest := attempts rng host port mx (if sleep then next_delay d else d) (S c) in
      Run (value rest)
          (Connect host port :: w :: (if sleep then [Sleep d] else []) ++ events rest)
          (ncalls rest).
Proof.
  intros Hko. cbn.
  unfold mbind, M_bind, bind, try_except, Startup.connect_ex, external. cbn.
  destruct (sock c) as [code|e]; cbn in *.
  - destruct (code =? 0) eqn:Hc.
    { apply Z.eqb_eq in Hc. subst code. discriminate. }
    cbn. eexists; split; [|destruct (a <? mx - 1); cbn; reflexivity]. reflexivity.
  - eexists; split; [|destruct (a <? mx - 1); cbn; reflexivity]. reflexivity.
Qed.

(** What a loop of [n] iterations does, from attempt [a] of [a + n] on. *)
Lemma attempts_run n : forall a d c,
  let r := attempts (Z.of_nat <$> seq a n) host port (Z.of_nat (a + n)) d c in
  let k := attempts_made sock c n in
  let ok := succeeds sock c n in
  value r = Return ok
  /\ ncalls r = (c + k)%nat
  /\ probes (events r) = k
  /\ sleeps (events r) = delays d (k - 1)
  /\ warnings (events r) = (k - (if ok then 1 else 0))%nat
  /\ (ok = true -> exists pre,
        events r = (pre ++ [Connect host port;
                            Log INFO "Neo4j is ready at {host}:{port}"
                                [AStr host; AInt port]])%list).
Proof.
  induction n as [|n IH]; intros a d c.
  - cbv zeta. unfold attempts_made, succeeds.
    cbn [seq fmap list_fmap first_ok]. rewrite attempts_nil. cbn.
    repeat split; try reflexivity; try lia; discriminate.
  - cbv zeta. unfold attempts_made, succeeds. cbn [seq fmap list_fmap first_ok].
    destruct (probe_ok (sock c)) eqn:Hc.
    + rewrite attempts_ok by exact Hc. cbn.
      repeat split; try reflexivity; try lia.
      intros _. exists []. reflexivity.
    + destruct (attempts_ko (Z.of_nat a) (Z.of_nat <$> seq (S a) n)
                  (Z.of_nat (a + S n)) d c Hc) as (w & Hw & ->).
      destruct n as [|m].
      * replace (Z.of_nat a <? Z.of_nat (a + 1) - 1) with false
          by (symmetry; apply Z.ltb_ge; lia).
        cbv zeta. cbn [seq fmap list_fmap]. rewrite attempts_nil.
        destruct w as [[] ? ?| | | |]; try discriminate. cbn.
        repeat split; try reflexivity; try lia; discriminate.
      * replace (Z.of_nat a <? Z.of_nat (a + S (S m)) - 1) with true
          by (symmetry; apply Z.ltb_lt; lia).
        replace (a + S (S m))%nat with (S a + S m)%nat by lia.
        specialize (IH (S a) (next_delay d) (S c)).
        cbv beta iota zeta in IH |- *.
        remember (attempts (Z.of_nat <$> seq (S a) (S m)) host port
                    (Z.of_nat (S a + S m)) (next_delay d) (S c)) as rest eqn:Hrest.
        clear Hrest.
        destruct IH as (Hv & Hn & Hp & Hs & Hwn & Hlast).
        unfold attempts_made, succeeds in *.
        destruct w as [[] ? ?| | | |]; try discriminate.
        unfold probes, warnings, sleeps in *.
        destruct (first_ok sock (S c) (S m)) as [j|];
          cbn [fmap option_fmap option_map value events ncalls app
               List.filter is_connect is_warning omap list_omap slept length];
          rewrite Hv, Hn, Hp, Hs, Hwn;
          (repeat split; try reflexivity; try lia; try discriminate;
           try (cbn [Nat.sub delays]; rewrite ?Nat.sub_0_r; reflexivity)).
        intros _. destruct (Hlast eq_refl) as [pre Hpre].
        eexists (_ :: _ :: _ :: pre). rewrite Hpre. reflexivity.
Qed.

(** What [wait_for_neo4j] does on a URI from which a host and a port are
    extracted. *)
Lemma wait_for_neo4j_run uri mx d :
  Startup.extract_host_port uri = inr (host, port) ->
  let r := start (Startup.wait_for_neo4j sock uri mx d) in
  let k := attempts_made sock 0 (Z.to_nat mx) in
  let ok := succeeds sock 0 (Z.to_nat mx) in
  value r = Return ok
  /\ ncalls r = k
  /\ probes (events r) = k
  /\ sleeps (events r) = delays d (k - 1)
  /\ warnings (events r) = (k - (if ok then 1 else 0))%nat
  /\ (ok = true -> exists pre,
        events r = (pre ++ [Connect host port;
                            Log INFO "Neo4j is ready at {host}:{port}"
                                [AStr host; AInt port]])%list).
Proof.
  intros Hparse. unfold start, Startup.wait_for_neo4j. rewrite Hparse.
  unfold Py.range.
  assert (Hrun := attempts_run (Z.to_nat mx) 0 d 0).
  replace (Startup.attempts sock (Z.of_nat <$> seq 0 (Z.to_nat mx)) host port mx d)
    with (attempts (Z.of_nat <$> seq 0 (Z.to_nat mx)) host port
            (Z.of_nat (0 + Z.to_nat mx)) d).
  2:{ destruct (Z.to_nat mx) eqn:Hn; [reflexivity|].
      f_equal. lia. }
  cbv zeta in Hrun |- *.
  remember (attempts (Z.of_nat <$> seq 0 (Z.to_nat mx)) host port
              (Z.of_nat (0 + Z.to_nat mx)) d) as loop eqn:Hloop.
  unfold mbind, M_bind, bind, emit. cbn [value events ncalls].
  destruct Hrun as (Hv & Hn & Hp & Hs & Hw & Hlast).
  unfold probes, sleeps, warnings in *.
  cbn [app List.filter is_connect is_warning omap list_omap slept].
  repeat split; try assumption.
  intros Hok. destruct (Hlast Hok) as [pre Hpre].
  exists (Log INFO "Waiting for Neo4j at {host}:{port}" [AStr host; AInt port] :: pre).
  rewrite Hpre. reflexivity.
Qed.

End Driver.

(** The first success, from what each probe answers. *)
Lemma first_ok_none sock n : forall c,
  (forall j, (j < n)%nat -> probe_ok (sock (c + j)%nat) = false) ->
  first_ok sock c n = None.
Proof.
  induction n as [|n IH]; intros c Hall; [reflexivity|]. cbn.
  rewrite <- (Nat.add_0_r c) at 1. rewrite (Hall 0%nat) by lia.
  rewrite IH; [reflexivity|].
  intros j Hj. replace (S c + j)%nat with (c + S j)%nat by lia. apply Hall. lia.
Qed.

Lemma first_ok_some sock n : forall c i,
  (i < n)%nat ->
  (forall j, (j < i)%nat -> probe_ok (sock (c + j)%nat) = false) ->
  probe_ok (sock (c + i)%nat) = true ->
  first_ok sock c n = Some i.
Proof.
  induction n as [|n IH]; intros c i Hi Hbefore Hat; [lia|]. cbn.
  destruct i as [|i].
  - rewrite Nat.add_0_r in Hat. rewrite Hat. reflexivity.
  - rewrite <- (Nat.add_0_r c) at 1. rewrite (Hbefore 0%nat) by lia.
    rewrite (IH (S c) i); [reflexivity|lia| |].
    + intros j Hj. replace (S c + j)%nat with (c + S j)%nat by lia. apply Hbefore. lia.
    + replace (S c + i)%nat with (c + S i)%nat by lia. exact Hat.
Qed.

Lemma first_ok_lt sock n : forall c i, first_ok sock c n = Some i -> (i < n)%nat.
Proof.
  induction n as [|n IH]; intros c i; cbn; [discriminate|].
  destruct (probe_ok (sock c)).
  - intros [= <-]. lia.
  - destruct (first_ok sock (S c) n) as [j|] eqn:Hj; cbn; [|discriminate].
    intros [= <-]. apply IH in Hj. lia.
Qed.

Lemma attempts_made_le sock c n : (attempts_made sock c n <= n)%nat.
Proof.
  unfold attempts_made. destruct (first_ok sock c n) as [j|] eqn:Hj; [|lia].
  apply first_ok_lt in Hj. lia.
Qed.

Lemma length_delays `{DelayOps D} k : forall d : D, length (delays d k) = k.
Proof. induction k as [|k IH]; intros d; cbn; [reflexivity|]. rewrite IH. reflexivity. Qed.

Lemma delays_lookup `{DelayOps D} k : forall (d : D) i x,
  delays d k !! i = Some x -> x = delay_after d i.
Proof.
  induction k as [|k IH]; intros d i x; cbn; [discriminate|].
  destruct i as [|i]; cbn.
  - intros [= <-]. reflexivity.
  - intros Hx. apply IH in Hx. subst x. unfold delay_after.
    symmetry. exact (Nat.iter_succ_r i next_delay d).
Qed.

(** The two copies of the driver are the same function. *)
Lemma wait_for_neo4j_same `{DelayOps D} :
  Main.wait_for_neo4j (D:=D) = Startup.wait_for_neo4j (D:=D).
Proof. reflexivity. Qed.

Lemma extract_host_port_same :
  Main.extract_host_port = Startup.extract_host_port.
Proof. reflexivity. Qed.

(** ** Host and port extraction *)

(** C1.  [wait_for_neo4j] (both copies) drops six characters where the
    prefix ['bolt://'] has seven, so the host keeps a leading slash:
    ['bolt://neo4j:7687'] gives host ['/neo4j'] and port 7687,
    ['bolt://db'] gives host ['/db'] and port 7687; only the bare
    ['db:9999'] gives host ['db'] and port 9999.  The extraction does not
    validate its result either: [':9999'] gives the empty host and ['db:0']
    the port 0. *)
Theorem extract_host_port_keeps_slash :
  Startup.extract_host_port "bolt://neo4j:7687" = inr ("/neo4j", 7687)
  /\ Startup.extract_host_port "bolt://db" = inr ("/db", 7687)
  /\ Startup.extract_host_port "db:9999" = inr ("db", 9999)
  /\ Startup.extract_host_port ":9999" = inr ("", 9999)
  /\ Startup.extract_host_port "db:0" = inr ("db", 0)
  /\ Main.extract_host_port "bolt://neo4j:7687" = inr ("/neo4j", 7687)
  /\ Main.extract_host_port "bolt://db" = inr ("/db", 7687).
Proof. repeat split; reflexivity. Qed.

(** ** Attempts and suspensions *)

(** C2, as amended.  On a URI that parses and with [max_retries = N >= 1],
    the driver makes between 1 and [N] probes and sleeps once between
    consecutive probes, that is one time less than it probes.  When every
    probe fails it returns [False] after exactly [N] probes and [N - 1]
    sleeps, and the delays slept are the first [N - 1] terms of the capped
    sequence, so their total is the sum of these terms for any addition. *)
Theorem attempts_bounded_sleeps_between `{DelayOps D}
    (sock : nat -> answer Z) (uri host : string) (port N : Z) (d : D) :
  Startup.extract_host_port uri = inr (host, port) ->
  1 <= N ->
  let r := start (Startup.wait_for_neo4j sock uri N d) in
  (1 <= probes (events r))%nat
  /\ Z.of_nat (probes (events r)) <= N
  /\ length (sleeps (events r)) = (probes (events r) - 1)%nat
  /\ ((forall j, (j < Z.to_nat N)%nat -> probe_ok (sock j) = false) ->
      value r = Return false
      /\ probes (events r) = Z.to_nat N
      /\ length (sleeps (events r)) = (Z.to_nat N - 1)%nat
      /\ sleeps (events r) = delays d (Z.to_nat N - 1)
      /\ forall (plus : D -> D -> D) (zero : D),
           foldr plus zero (sleeps (events r))
           = foldr plus zero (delays d (Z.to_nat N - 1))).
Proof.
  intros Hparse HN r.
  destruct (wait_for_neo4j_run sock host port uri N d Hparse)
    as (Hv & _ & Hp & Hs & _ & _).
  fold r in Hv, Hp, Hs.
  assert (Hle := attempts_made_le sock 0 (Z.to_nat N)).
  assert (Hge : (1 <= attempts_made sock 0 (Z.to_nat N))%nat).
  { unfold attempts_made. destruct (first_ok sock 0 (Z.to_nat N)); lia. }
  rewrite Hp, Hs, length_delays.
  split; [lia|]. split; [lia|]. split; [lia|].
  intros Hall.
  assert (Hnone : first_ok sock 0 (Z.to_nat N) = None)
    by (apply first_ok_none; exact Hall).
  unfold attempts_made, succeeds in *. rewrite Hnone in *.
  repeat split; try assumption; reflexivity.
Qed.

Lemma attempts_bounded_sleeps_between_witness :
  let r := start (Startup.wait_for_neo4j (D:=float)
                    (fun _ => Throws gaierror) "bolt://neo4j:7687" 30 lit_2_0) in
  value r = Return false /\ probes (events r) = 30%nat
  /\ length (sleeps (events r)) = 29%nat.
Proof.
  destruct (attempts_bounded_sleeps_between (D:=float)
              (fun _ => Throws gaierror) "bolt://neo4j:7687" "/neo4j" 7687 30 lit_2_0
              eq_refl ltac:(lia))
    as (_ & _ & _ & Hall).
  destruct (Hall (fun _ _ => eq_refl)) as (Hv & Hp & Hl & _).
  repeat split; assumption.
Defined.

(** C2, the claim as stated fails: with [max_retries = 3] and a probe that
    succeeds at once, the driver makes one probe and never sleeps, where the
    claim has it sleep [3 - 1] times. *)
Lemma early_success_sleeps_less :
  let r := start (Startup.wait_for_neo4j (D:=float)
                    (fun _ => Gives 0) "db:7687" 3 lit_2_0) in
  value r = Return true
  /\ probes (events r) = 1%nat
  /\ length (sleeps (events r)) = 0%nat
  /\ length (sleeps (events r)) <> (3 - 1)%nat.
Proof. vm_compute. repeat split; discriminate. Qed.

(** C3.  When the first successful probe is the [k]-th, with [k] at most
    [max_retries], the driver returns [True] having made exactly [k] probes
    and slept only between them ([k - 1] times); the trace ends with the
    [k]-th probe and its "ready" line, so nothing is probed or slept after
    it. *)
Theorem success_at_attempt_k `{DelayOps D}
    (sock : nat -> answer Z) (uri host : string) (port N : Z) (d : D) (k : nat) :
  Startup.extract_host_port uri = inr (host, port) ->
  (1 <= k)%nat ->
  Z.of_nat k <= N ->
  (forall j, (j < k - 1)%nat -> probe_ok (sock j) = false) ->
  probe_ok (sock (k - 1)%nat) = true ->
  let r := start (Startup.wait_for_neo4j sock uri N d) in
  value r = Return true
  /\ probes (events r) = k
  /\ ncalls r = k
  /\ sleeps (events r) = delays d (k - 1)
  /\ exists pre,
       events r = (pre ++ [Connect host port;
                           Log INFO "Neo4j is ready at {host}:{port}"
                               [AStr host; AInt port]])%list.
Proof.
  intros Hparse Hk HkN Hbefore Hat r.
  destruct (wait_for_neo4j_run sock host port uri N d Hparse)
    as (Hv & Hn & Hp & Hs & _ & Hlast).
  fold r in Hv, Hn, Hp, Hs, Hlast.
  assert (Hfirst : first_ok sock 0 (Z.to_nat N) = Some (k - 1)%nat).
  { apply first_ok_some; [lia|exact Hbefore|exact Hat]. }
  unfold attempts_made, succeeds in *. rewrite Hfirst in *.
  replace (S (k - 1)) with k in * by lia.
  repeat split; try assumption. apply Hlast. reflexivity.
Qed.

Lemma success_at_attempt_k_witness :
  let r := start (Startup.wait_for_neo4j (D:=float)
                    (fun j => if (j <? 3)%nat then Gives 111 else Gives 0)
                    "bolt://neo4j:7687" 30 lit_2_0) in
  value r = Return true /\ probes (events r) = 4%nat.
Proof.
  destruct (success_at_attempt_k (D:=float)
              (fun j => if (j <? 3)%nat then Gives 111 else Gives 0)
              "bolt://neo4j:7687" "/neo4j" 7687 30 lit_2_0 4
              eq_refl ltac:(lia) ltac:(lia)
              ltac:(intros [|[|[|j]]] Hj; [reflexivity..|cbn in Hj; lia])
              eq_refl)
    as (Hv & Hp & _).
  split; assumption.
Defined.

(** ** Failure modes *)

(** C6, as amended.  On a URI from which a host and a port are extracted,
    [wait_for_neo4j] returns a boolean whatever the probes do (a nonzero
    [connect_ex] result or any exception of the socket calls): it never
    raises, and every probe that did not succeed logged one warning.  The
    copy in [main.py] runs identically. *)
Theorem failures_become_warnings `{DelayOps D}
    (sock : nat -> answer Z) (uri host : string) (port N : Z) (d : D) :
  Startup.extract_host_port uri = inr (host, port) ->
  let r := start (Startup.wait_for_neo4j sock uri N d) in
  (exists b : bool,
     value r = Return b
     /\ warnings (events r) = (probes (events r) - (if b then 1 else 0))%nat)
  /\ start (Main.wait_for_neo4j sock uri N d) = r.
Proof.
  intros Hparse r.
  destruct (wait_for_neo4j_run sock host port uri N d Hparse)
    as (Hv & _ & Hp & _ & Hw & _).
  fold r in Hv, Hp, Hw. split; [|reflexivity].
  exists (succeeds sock 0 (Z.to_nat N)). rewrite Hp. split; assumption.
Qed.

Lemma failures_become_warnings_witness :
  let r := start (Startup.wait_for_neo4j (D:=float)
                    (fun j => if (j <? 2)%nat then Throws TimeoutError else Gives 111)
                    "db:7687" 4 lit_2_0) in
  exists b : bool,
    value r = Return b
    /\ warnings (events r) = (probes (events r) - (if b then 1 else 0))%nat.
Proof.
  exact (proj1 (failures_become_warnings (D:=float)
                  (fun j => if (j <? 2)%nat then Throws TimeoutError else Gives 111)
                  "db:7687" "db" 7687 4 lit_2_0 eq_refl)).
Defined.

(** C6, the claim as stated fails: the port suffix is converted with
    [int] before the loop and outside its [try], so a port that is not a
    number raises [ValueError] to the caller, before any probe or log.  So
    does a port of more digits than [int] converts (here 4301 of them). *)
Lemma malformed_port_raises :
  start (Startup.wait_for_neo4j (D:=float) (fun _ => Gives 0) "bolt://db:abc" 30 lit_2_0)
  = Run (Raise ValueError) [] 0
  /\ start (Main.wait_for_neo4j (D:=float) (fun _ => Gives 0) "bolt://db:abc" 30 lit_2_0)
     = Run (Raise ValueError) [] 0
  /\ start (Startup.wait_for_neo4j (D:=float) (fun _ => Gives 0)
              ("db:" ++ string_of_list_ascii (replicate 4301 "1"%char)) 30 lit_2_0)
     = Run (Raise ValueError) [] 0.
Proof. split; [reflexivity|]. split; [reflexivity|]. vm_compute. reflexivity. Qed.

(** ** The two copies of the driver *)

(** C10.  [wait_for_neo4j] of [main.py] and of [startup.py] extract the
    same host and port from every URI and, for every URI, retry bound,
    initial delay and behaviour of the probes, run identically: same
    outcome (boolean or exception), same sequence of probes, log lines and
    sleeps, same number of calls. *)
Theorem drivers_extensionally_equal `{DelayOps D}
    (sock : nat -> answer Z) (uri : string) (max_retries : Z) (retry_delay : D)
    (n : nat) :
  Main.extract_host_port uri = Startup.extract_host_port uri
  /\ Main.wait_for_neo4j sock uri max_retries retry_delay n
     = Startup.wait_for_neo4j sock uri max_retries retry_delay n.
Proof. split; [rewrite extract_host_port_same|rewrite wait_for_neo4j_same]; reflexivity. Qed.

(** ** The delay sequence in binary64 *)

(** *** Rounding of a product *)

(** The number of binary digits of a mantissa. *)
Lemma digits2_pos_bounds (p : positive) :
  2 ^ (Zpos (digits2_pos p) - 1) <= Zpos p < 2 ^ Zpos (digits2_pos p).
Proof.
  induction p as [p IH|p IH|]; cbn [digits2_pos]; [| |cbn; lia].
  - rewrite Pos2Z.inj_succ, (Pos2Z.inj_xI p).
    replace (Z.succ (Zpos (digits2_pos p)) - 1) with (Z.succ (Zpos (digits2_pos p) - 1)) by lia.
    rewrite !Z.pow_succ_r by lia. lia.
  - rewrite Pos2Z.inj_succ, (Pos2Z.inj_xO p).
    replace (Z.succ (Zpos (digits2_pos p)) - 1) with (Z.succ (Zpos (digits2_pos p) - 1)) by lia.
    rewrite !Z.pow_succ_r by lia. lia.
Qed.

Lemma shr_1_m (r : shr_record) : 0 <= shr_m r -> shr_m (shr_1 r) = shr_m r / 2.
Proof.
  destruct r as [m r s]. cbn [shr_m]. intros Hm.
  rewrite <- Z.div2_div.
  destruct m as [|[p|p|]|p]; try reflexivity. lia.
Qed.

Lemma iter_pos_shr_1_m (p : positive) : forall r : shr_record,
  0 <= shr_m r -> shr_m (SpecFloat.iter_pos shr_1 p r) = shr_m r / 2 ^ Zpos p.
Proof.
  induction p as [p IH|p IH|]; intros r Hr; cbn [SpecFloat.iter_pos].
  - assert (H1 : 0 <= shr_m (shr_1 r))
      by (rewrite shr_1_m by assumption; apply Z.div_pos; lia).
    assert (H2 : 0 <= shr_m (SpecFloat.iter_pos shr_1 p (shr_1 r)))
      by (rewrite IH by assumption; apply Z.div_pos; lia).
    rewrite (IH _ H2), (IH _ H1), (shr_1_m _ Hr).
    rewrite !Z.div_div by lia. f_equal.
    replace (Zpos p~1) with (1 + Zpos p + Zpos p) by lia.
    rewrite !Z.pow_add_r by lia. lia.
  - assert (H2 : 0 <= shr_m (SpecFloat.iter_pos shr_1 p r))
      by (rewrite IH by assumption; apply Z.div_pos; lia).
    rewrite (IH _ H2), (IH _ Hr).
    rewrite !Z.div_div by lia. f_equal.
    replace (Zpos p~0) with (Zpos p + Zpos p) by lia.
    rewrite !Z.pow_add_r by lia. lia.
  - rewrite (shr_1_m _ Hr). reflexivity.
Qed.

Lemma round_nearest_even_ge (q : Z) (l : location) : q <= round_nearest_even q l.
Proof. destruct l as [|[]]; cbn; try destruct (Z.even q); lia. Qed.

(** [shr] by a number of bits. *)
Lemma shr_m_shr (r : shr_record) (e n : Z) :
  0 <= shr_m r ->
  shr_m (fst (shr r e n)) = (if 0 <? n then shr_m r / 2 ^ n else shr_m r)
  /\ snd (shr r e n) = (if 0 <? n then e + n else e).
Proof.
  intros Hr. destruct n as [|p|p]; cbn [shr fst snd Z.ltb Z.compare]; [auto| |auto].
  split; [apply iter_pos_shr_1_m; assumption|reflexivity].
Qed.

(** Rounding a positive integer mantissa: the first shift drops the bits
    below the target exponent, rounding to nearest never goes below the
    truncated mantissa, and a second shift renormalises. *)
Lemma binary_round_aux_pos (s : bool) (M : positive) (E : Z) :
  let n1 := fexp prec emax (Zpos (digits2_pos M) + E) - E in
  let e1 := if 0 <? n1 then E + n1 else E in
  exists q1 : Z,
    (if 0 <? n1 then Zpos M / 2 ^ n1 else Zpos M) <= q1
    /\ binary_round_aux prec emax s (Zpos M) E loc_Exact
       = let n2 := fexp prec emax (Zdigits2 q1 + e1) - e1 in
         match (if 0 <? n2 then q1 / 2 ^ n2 else q1) with
         | 0 => S754_zero s
         | Zpos m =>
             if (if 0 <? n2 then e1 + n2 else e1) <=? emax - prec
             then S754_finite s m (if 0 <? n2 then e1 + n2 else e1)
             else S754_infinity s
         | Zneg _ => S754_nan
         end.
Proof.
  intros n1 e1. unfold binary_round_aux, shr_fexp.
  cbn [shr_record_of_loc Zdigits2]. fold n1.
  destruct (shr_m_shr (Build_shr_record (Zpos M) false false) E n1) as [Hm1 He1];
    [cbn; lia|].
  destruct (shr (Build_shr_record (Zpos M) false false) E n1) as [mrs' e'].
  cbn [fst snd shr_m] in Hm1, He1. fold e1 in He1. subst e'.
  set (q1 := round_nearest_even (shr_m mrs') (loc_of_shr_record mrs')).
  assert (Hq1 : shr_m mrs' <= q1) by apply round_nearest_even_ge.
  exists q1. split; [rewrite <- Hm1; exact Hq1|].
  assert (H0 : 0 <= q1).
  { apply Z.le_trans with (shr_m mrs'); [|exact Hq1]. rewrite Hm1.
    destruct (Z.ltb_spec 0 n1); [apply Z.div_pos; [lia|apply Z.pow_pos_nonneg; lia]|lia]. }
  cbv zeta.
  destruct (shr_m_shr (Build_shr_record q1 false false) e1
              (fexp prec emax (Zdigits2 q1 + e1) - e1)) as [Hm2 He2];
    [exact H0|].
  destruct (shr (Build_shr_record q1 false false) e1
              (fexp prec emax (Zdigits2 q1 + e1) - e1)) as [mrs'' e''].
  cbn [fst snd shr_m] in Hm2, He2. rewrite Hm2, He2. reflexivity.
Qed.

(** Multiplying a positive binary64 number by the literal [1.2] gives
    a positive number that is not below it. *)
Lemma SFmul_1_2_finite (mx : positive) (ex : Z) :
  bounded prec emax mx ex = true ->
  SF64mul (S754_finite false mx ex) (S754_finite false 5404319552844595 (-52))
  = S754_infinity false
  \/ exists (m' : positive) (e' : Z),
       SF64mul (S754_finite false mx ex) (S754_finite false 5404319552844595 (-52))
       = S754_finite false m' e'
       /\ (ex < e' \/ (e' = ex /\ (mx <= m')%positive)).
Proof.
  intros Hb. apply andb_true_iff in Hb as [Hc _].
  apply Z.eqb_eq in Hc. unfold fexp, SpecFloat.emin, prec, emax in Hc.
  unfold SF64mul, SFmul. cbn [xorb].
  set (M := (mx * 5404319552844595)%positive).
  assert (HM : Zpos M = Zpos mx * 5404319552844595) by reflexivity.
  pose proof (digits2_pos_bounds mx) as Hdx.
  pose proof (digits2_pos_bounds M) as HdM.
  set (D := Zpos (digits2_pos mx)) in *.
  set (DM := Zpos (digits2_pos M)) in *.
  assert (HD : 0 < D) by (subst D; lia).
  assert (HDM : D + 52 <= DM <= D + 53).
  { split.
    - assert (H : 2 ^ (D - 1 + 52) < 2 ^ DM).
      { rewrite Z.pow_add_r by lia. change (2 ^ 52) with 4503599627370496. nia. }
      apply Z.pow_lt_mono_r_iff in H; subst DM; lia.
    - assert (H : 2 ^ (DM - 1) < 2 ^ (D + 53)).
      { rewrite Z.pow_add_r by lia. change (2 ^ 53) with 9007199254740992. nia. }
      apply Z.pow_lt_mono_r_iff in H; lia. }
  destruct (binary_round_aux_pos false M (ex + -52)) as (q1 & Hq1 & ->).
  fold DM in Hq1 |- *. unfold fexp, SpecFloat.emin, prec, emax in Hq1 |- *.
  set (e1 := Z.max (DM + (ex + -52) - 53) (3 - 1024 - 53)) in *.
  assert (He1 : e1 = ex \/ (e1 = ex + 1 /\ DM = 106)) by lia.
  replace (0 <? e1 - (ex + -52)) with true in * by (symmetry; apply Z.ltb_lt; lia).
  replace (ex + -52 + (e1 - (ex + -52))) with e1 in * by lia.
  assert (Hq : 1 <= q1 /\ (e1 = ex -> Zpos mx <= q1)).
  { destruct He1 as [->|[-> HDM106]].
    - replace (ex - (ex + -52)) with 52 in Hq1 by lia.
      assert (Zpos mx <= Zpos M / 2 ^ 52).
      { apply Z.div_le_lower_bound; [lia|]. change (2 ^ 52) with 4503599627370496. lia. }
      lia.
    - replace (ex + 1 - (ex + -52)) with 53 in Hq1 by lia.
      assert (1 <= Zpos M / 2 ^ 53).
      { apply Z.div_le_lower_bound; [lia|]. rewrite HDM106 in HdM.
        change (2 ^ (106 - 1)) with (2 ^ 53 * 2 ^ 52) in HdM.
        change (2 ^ 52) with 4503599627370496 in HdM. lia. }
      lia. }
  destruct Hq as [Hq1pos Hq1x].
  destruct q1 as [|pq|pq]; try lia.
  cbn [Zdigits2]. cbv zeta.
  pose proof (digits2_pos_bounds pq) as Hdq.
  set (D1 := Zpos (digits2_pos pq)) in *.
  set (n2 := Z.max (D1 + e1 - 53) (3 - 1024 - 53) - e1).
  destruct (Z.ltb_spec 0 n2) as [Hn2|Hn2].
  - assert (Hn2' : n2 = D1 - 53) by lia.
    assert (Hm : 2 ^ 52 <= Zpos pq / 2 ^ n2).
    { apply Z.div_le_lower_bound; [apply Z.pow_pos_nonneg; lia|].
      rewrite <- Z.pow_add_r by lia. replace (n2 + 52) with (D1 - 1) by lia. lia. }
    change (2 ^ 52) with 4503599627370496 in Hm.
    destruct (Zpos pq / 2 ^ n2) as [|m|m]; try lia.
    destruct (e1 + n2 <=? 1024 - 53); [right|left; reflexivity].
    exists m, (e1 + n2). split; [reflexivity|left; lia].
  - destruct (e1 <=? 1024 - 53); [right|left; reflexivity].
    exists pq, e1. split; [reflexivity|].
    destruct He1 as [->|[-> _]]; [right|left; lia].
    split; [reflexivity|]. specialize (Hq1x eq_refl). lia.
Qed.

(** A product of finite numbers is never NaN. *)
Lemma binary_round_aux_not_nan (s : bool) (M : positive) (E : Z) :
  binary_round_aux prec emax s (Zpos M) E loc_Exact <> S754_nan.
Proof.
  destruct (binary_round_aux_pos s M E) as (q1 & Hq1 & ->). cbv zeta.
  set (n1 := fexp prec emax (Zpos (digits2_pos M) + E) - E) in *.
  assert (H0 : 0 <= q1).
  { apply Z.le_trans with (if 0 <? n1 then Zpos M / 2 ^ n1 else Zpos M); [|exact Hq1].
    destruct (Z.ltb_spec 0 n1); [apply Z.div_pos; [lia|apply Z.pow_pos_nonneg; lia]|lia]. }
  match goal with |- context [fexp ?p ?m ?x - ?y] => set (n2 := fexp p m x - y) end.
  assert (H1 : 0 <= (if 0 <? n2 then q1 / 2 ^ n2 else q1)).
  { destruct (Z.ltb_spec 0 n2); [apply Z.div_pos; [lia|apply Z.pow_pos_nonneg; lia]|lia]. }
  destruct (if 0 <? n2 then q1 / 2 ^ n2 else q1); [discriminate| |lia].
  destruct (_ <=? _); discriminate.
Qed.

(** *** One update of the delay *)

Lemma Prim2SF_1_2 :
  Prim2SF 0x1.3333333333333p+0 = S754_finite false 5404319552844595 (-52).
Proof. vm_compute. reflexivity. Qed.

Lemma Prim2SF_10 : Prim2SF 10 = S754_finite false 5629499534213120 (-49).
Proof. vm_compute. reflexivity. Qed.

Lemma Prim2SF_0 : Prim2SF 0 = S754_zero false.
Proof. vm_compute. reflexivity. Qed.

Lemma Prim2SF_infinity : Prim2SF infinity = S754_infinity false.
Proof. vm_compute. reflexivity. Qed.

Lemma next_delay_b64_eq (d : float) :
  next_delay d
  = if (10 <? d * 0x1.3333333333333p+0)%float then 10%float
    else (d * 0x1.3333333333333p+0)%float.
Proof. reflexivity. Qed.

(** A number above zero is a positive finite number or plus infinity. *)
Lemma positive_b64 (d : float) :
  (0 <? d)%float = true ->
  Prim2SF d = S754_infinity false
  \/ exists m e, Prim2SF d = S754_finite false m e /\ bounded prec emax m e = true.
Proof.
  intros Hd. rewrite ltb_spec, Prim2SF_0 in Hd.
  pose proof (Prim2SF_valid d) as Hv.
  destruct (Prim2SF d) as [s|[]| |[] m e]; try discriminate.
  - left. reflexivity.
  - right. exists m, e. split; [reflexivity|exact Hv].
Qed.

Lemma SFleb_finite (m1 m2 : positive) (e1 e2 : Z) :
  e1 < e2 \/ (e2 = e1 /\ (m1 <= m2)%positive) ->
  SFleb (S754_finite false m1 e1) (S754_finite false m2 e2) = true.
Proof.
  unfold SFleb, SFcompare. intros [Hlt|[-> Hle]].
  - apply Z.compare_lt_iff in Hlt. rewrite Hlt. reflexivity.
  - rewrite Z.compare_refl. change (Pos.compare_cont Eq m1 m2) with (m1 ?= m2)%positive.
    unfold Pos.le in Hle. destruct (m1 ?= m2)%positive; congruence.
Qed.

(** Comparisons with a finite positive number are antisymmetric. *)
Lemma SFltb_false_SFleb (x : spec_float) (m : positive) (e : Z) :
  x <> S754_nan ->
  SFltb (S754_finite false m e) x = false ->
  SFleb x (S754_finite false m e) = true.
Proof.
  intros Hnan. unfold SFltb, SFleb, SFcompare.
  destruct x as [s|[]| |[] mx ex]; try reflexivity; try discriminate; try congruence.
  rewrite (Z.compare_antisym e ex).
  change (Pos.compare_cont Eq mx m) with (Pos.compare_cont (CompOpp Eq) mx m).
  rewrite <- (Pos.compare_cont_antisym m mx Eq).
  destruct (e ?= ex); cbn [CompOpp]; try reflexivity; try discriminate.
  destruct (Pos.compare_cont Eq m mx); cbn [CompOpp]; try reflexivity; discriminate.
Qed.

(** Multiplying by [1.2] never gives NaN from a number. *)
Lemma SFmul_1_2_not_nan (x : spec_float) :
  x <> S754_nan ->
  SF64mul x (S754_finite false 5404319552844595 (-52)) <> S754_nan.
Proof.
  intros Hx. unfold SF64mul, SFmul.
  destruct x as [s|s| |s m e]; try discriminate; [congruence|].
  apply binary_round_aux_not_nan.
Qed.

Lemma mul_1_2_b64 (d : float) :
  (0 <? d)%float = true ->
  (0 <? d * 0x1.3333333333333p+0)%float = true
  /\ (d <=? d * 0x1.3333333333333p+0)%float = true.
Proof.
  intros Hd. rewrite ltb_spec, leb_spec, mul_spec, Prim2SF_0, Prim2SF_1_2.
  destruct (positive_b64 d Hd) as [->|(m & e & -> & Hb)].
  - split; reflexivity.
  - destruct (SFmul_1_2_finite m e Hb) as [->|(m' & e' & -> & Hle)].
    + split; reflexivity.
    + split; [reflexivity|apply SFleb_finite; exact Hle].
Qed.

(** What [min(p, 10)] returns is at most 10 unless [p] is NaN. *)
Lemma py_min_10_b64 (p : float) :
  Prim2SF p <> S754_nan ->
  Prim2SF (py_min p 10%float) <> S754_nan
  /\ (py_min p 10 <=? 10)%float = true.
Proof.
  intros Hp. unfold py_min. cbn [dlt float_delay].
  destruct (10 <? p)%float eqn:Hlt.
  - split; [rewrite Prim2SF_10; discriminate|reflexivity].
  - split; [exact Hp|].
    rewrite ltb_spec, Prim2SF_10 in Hlt. rewrite leb_spec, Prim2SF_10.
    apply SFltb_false_SFleb; assumption.
Qed.

(** One update of a delay in (0, 10]. *)
Lemma next_delay_b64 (d : float) :
  (0 <? d)%float = true ->
  (d <=? 10)%float = true ->
  (0 <? next_delay d)%float = true
  /\ (next_delay d <=? 10)%float = true
  /\ (d <=? next_delay d)%float = true.
Proof.
  intros Hpos Hle. destruct (mul_1_2_b64 d Hpos) as [Hp Hdp].
  assert (Hnan : Prim2SF (d * 0x1.3333333333333p+0)%float <> S754_nan).
  { intros Hn. rewrite ltb_spec, Hn, Prim2SF_0 in Hp. discriminate. }
  destruct (py_min_10_b64 _ Hnan) as [_ Hcap].
  split; [|split; [exact Hcap|]].
  - rewrite next_delay_b64_eq. destruct (10 <? _)%float; [reflexivity|exact Hp].
  - rewrite next_delay_b64_eq. destruct (10 <? _)%float; assumption.
Qed.

(** One update of any delay that is a number. *)
Lemma next_delay_capped_b64 (d : float) :
  Prim2SF d <> S754_nan ->
  Prim2SF (next_delay d) <> S754_nan /\ (next_delay d <=? 10)%float = true.
Proof.
  intros Hd. apply py_min_10_b64.
  cbn [dmul lit_1_2 float_delay]. rewrite mul_spec, Prim2SF_1_2.
  apply SFmul_1_2_not_nan. exact Hd.
Qed.

Lemma delay_after_range_b64 (d0 : float) (i : nat) :
  (0 <? d0)%float = true ->
  (d0 <=? 10)%float = true ->
  (0 <? delay_after d0 i)%float = true /\ (delay_after d0 i <=? 10)%float = true.
Proof.
  intros Hpos Hle. induction i as [|i [IH1 IH2]]; [split; assumption|].
  change (delay_after d0 (S i)) with (next_delay (delay_after d0 i)).
  destruct (next_delay_b64 _ IH1 IH2) as (? & ? & _). split; assumption.
Qed.

Lemma delay_after_mono_b64 (d0 : float) (i : nat) :
  (0 <? d0)%float = true ->
  (d0 <=? 10)%float = true ->
  (delay_after d0 i <=? delay_after d0 (S i))%float = true.
Proof.
  intros Hpos Hle. destruct (delay_after_range_b64 d0 i Hpos Hle) as [H1 H2].
  change (delay_after d0 (S i)) with (next_delay (delay_after d0 i)).
  apply next_delay_b64; assumption.
Qed.

Lemma delay_after_capped_b64 (d0 : float) (i : nat) :
  Prim2SF d0 <> S754_nan ->
  Prim2SF (delay_after d0 (S i)) <> S754_nan
  /\ (delay_after d0 (S i) <=? 10)%float = true.
Proof.
  intros Hd. 
  assert (Hi : Prim2SF (delay_after d0 i) <> S754_nan).
  { induction i as [|i IH]; [exact Hd|].
    change (delay_after d0 (S i)) with (next_delay (delay_after d0 i)).
    apply next_delay_capped_b64. exact IH. }
  change (delay_after d0 (S i)) with (next_delay (delay_after d0 i)).
  apply next_delay_capped_b64. exact Hi.
Qed.

(** *** The default policy *)

Lemma next_delay_10 : next_delay 10%float = 10%float.
Proof. vm_compute. reflexivity. Qed.

Lemma delay_after_default_capped (k : nat) : delay_after 2%float (9 + k) = 10%float.
Proof.
  induction k as [|k IH]; [vm_compute; reflexivity|].
  replace (9 + S k)%nat with (S (9 + k)) by lia.
  change (delay_after 2%float (S (9 + k))) with (next_delay (delay_after 2%float (9 + k))).
  rewrite IH. apply next_delay_10.
Qed.

Lemma delay_after_default (i : nat) :
  delay_after 2%float i = nth i default_delays 10%float.
Proof.
  do 9 (destruct i as [|i]; [vm_compute; reflexivity|]).
  change (S (S (S (S (S (S (S (S (S i))))))))) with (9 + i)%nat.
  rewrite delay_after_default_capped. 
  change (9 + i)%nat with (length default_delays + i)%nat.
  rewrite nth_overflow; [reflexivity|lia].
Qed.

Lemma power_6_5_ge (k : nat) : (5 <= (6 # 5) ^ Z.of_nat (9 + k))%Q.
Proof.
  induction k as [|k IH].
  - apply Qle_bool_iff. vm_compute. reflexivity.
  - replace (9 + S k)%nat with (S (9 + k)) by lia.
    rewrite Nat2Z.inj_succ. unfold Z.succ.
    rewrite Qpower_plus by discriminate. rewrite Qpower_1_r.
    set (y := ((6 # 5) ^ Z.of_nat (9 + k))%Q) in *. lra.
Qed.

Lemma closed_form_default_capped (k : nat) : (closed_form 2 (9 + k) == 10)%Q.
Proof.
  unfold closed_form. apply Q.min_r.
  pose proof (power_6_5_ge k). lra.
Qed.

(** Every delay of the default policy is within 2e-15 of the closed form. *)
Lemma delay_after_default_close (i : nat) :
  exists q : Q,
    float_value (delay_after 2%float i) = Some q
    /\ (Qabs (q - closed_form 2 i) <= 2 # 1000000000000000)%Q.
Proof.
  do 9 (destruct i as [|i];
        [eexists; split; [vm_compute; reflexivity|];
         apply Qle_bool_iff; vm_compute; reflexivity|]).
  change (S (S (S (S (S (S (S (S (S i))))))))) with (9 + i)%nat.
  rewrite delay_after_default_capped.
  eexists. split; [vm_compute; reflexivity|].
  rewrite closed_form_default_capped.
  apply Qle_bool_iff. vm_compute. reflexivity.
Qed.

(** *** Real values *)

Lemma bounded_canonical (m : positive) (e : Z) :
  bounded prec emax m e = true ->
  -1074 <= e /\ Zpos m < 2 ^ 53 /\ (-1074 < e -> 2 ^ 52 <= Zpos m).
Proof.
  intros Hb. apply andb_true_iff in Hb as [Hc _]. apply Z.eqb_eq in Hc.
  unfold fexp, SpecFloat.emin, prec, emax in Hc.
  pose proof (digits2_pos_bounds m) as [Hlo Hhi].
  set (D := Zpos (digits2_pos m)) in *.
  assert (HD : 0 < D) by (subst D; lia).
  split; [lia|]. split.
  - apply Z.lt_le_trans with (2 ^ D); [exact Hhi|].
    apply Z.pow_le_mono_r; lia.
  - intros He. replace D with 53 in Hlo by lia. exact Hlo.
Qed.

Lemma Qpower_2_pos (e : Z) : (0 < 2 ^ e)%Q.
Proof. apply Qpower_0_lt. reflexivity. Qed.

(** The order of binary64 agrees with the order of the real values. *)
Lemma SFleb_value (m1 m2 : positive) (e1 e2 : Z) :
  bounded prec emax m1 e1 = true ->
  bounded prec emax m2 e2 = true ->
  SFleb (S754_finite false m1 e1) (S754_finite false m2 e2) = true ->
  (inject_Z (Zpos m1) * 2 ^ e1 <= inject_Z (Zpos m2) * 2 ^ e2)%Q.
Proof.
  intros Hb1 Hb2. unfold SFleb, SFcompare.
  destruct (bounded_canonical m1 e1 Hb1) as (He1 & Hm1 & _).
  destruct (bounded_canonical m2 e2 Hb2) as (_ & _ & Hm2).
  pose proof (Qpower_2_pos e1) as Hp1.
  destruct (Z.compare_spec e1 e2) as [->|Hlt|Hgt].
  - change (Pos.compare_cont Eq m1 m2) with (m1 ?= m2)%positive.
    intros Hc. assert (Hle : (m1 <= m2)%positive).
    { unfold Pos.le. destruct (m1 ?= m2)%positive; congruence. }
    apply Qmult_le_compat_r; [|apply Qlt_le_weak, Qpower_2_pos].
    rewrite <- Zle_Qle. lia.
  - intros _. specialize (Hm2 ltac:(lia)).
    replace e2 with (1 + (e2 - 1 - e1) + e1) by lia.
    rewrite !Qpower_plus by discriminate.
    assert (Hk : (1 <= 2 ^ (e2 - 1 - e1))%Q).
    { change 1%Q with (2 ^ 0)%Q at 1. apply Qpower_le_compat_l; [lia|discriminate]. }
    set (k := (2 ^ (e2 - 1 - e1))%Q) in *. set (p := (2 ^ e1)%Q) in *.
    assert (H1 : (inject_Z (Zpos m1) <= inject_Z (2 ^ 53))%Q) by (rewrite <- Zle_Qle; lia).
    assert (H2 : (inject_Z (2 ^ 52) <= inject_Z (Zpos m2))%Q) by (rewrite <- Zle_Qle; lia).
    set (a := inject_Z (Zpos m1)) in *. set (b := inject_Z (Zpos m2)) in *.
    change (inject_Z (2 ^ 53)) with (2 * inject_Z (2 ^ 52))%Q in H1.
    set (c := inject_Z (2 ^ 52)) in *.
    assert (Hc : (0 < c)%Q) by reflexivity.
    change (2 ^ 1)%Q with 2%Q.
    apply Qle_trans with (2 * c * p)%Q.
    + apply Qmult_le_compat_r; [exact H1|lra].
    + assert (H3 : (c * p <= b * p)%Q) by (apply Qmult_le_compat_r; [exact H2|lra]).
      assert (H4 : (b * p * 1 <= b * p * k)%Q).
      { apply Qmult_le_l; [|exact Hk]. 
        apply Qlt_le_trans with (c * p)%Q; [|exact H3].
        apply Qmult_lt_0_compat; assumption. }
      lra.
  - discriminate.
Qed.

(** A binary64 number in (0, 10] stands for a real number in (0, 10]. *)
Lemma float_value_range (x : float) :
  (0 <? x)%float = true ->
  (x <=? 10)%float = true ->
  exists q, float_value x = Some q /\ (0 < q)%Q /\ (q <= 10)%Q.
Proof.
  intros Hpos Hle. rewrite leb_spec, Prim2SF_10 in Hle. unfold float_value.
  destruct (positive_b64 x Hpos) as [Hx|(m & e & Hx & Hb)]; rewrite Hx in Hle |- *;
    [discriminate|].
  eexists. split; [reflexivity|]. split.
  - apply Qmult_lt_0_compat; [|apply Qpower_2_pos]. reflexivity.
  - apply Qle_trans with (inject_Z 5629499534213120 * 2 ^ (-49))%Q.
    + apply SFleb_value; [exact Hb|reflexivity|exact Hle].
    + apply Qle_bool_iff. vm_compute. reflexivity.
Qed.

Lemma float_value_le (x y : float) :
  (0 <? x)%float = true ->
  (x <=? y)%float = true ->
  (y <=? 10)%float = true ->
  exists p q, float_value x = Some p /\ float_value y = Some q /\ (p <= q)%Q.
Proof.
  intros Hpos Hxy Hle. rewrite leb_spec in Hxy. rewrite leb_spec, Prim2SF_10 in Hle.
  unfold float_value.
  destruct (positive_b64 x Hpos) as [Hx|(m & e & Hx & Hb)]; rewrite Hx in Hxy |- *.
  - destruct (Prim2SF y) as [s|[]| |[] my ey]; discriminate.
  - pose proof (Prim2SF_valid y) as Hv.
    destruct (Prim2SF y) as [s|[]| |[] my ey]; try discriminate.
    eexists _, _. split; [reflexivity|]. split; [reflexivity|].
    apply SFleb_value; assumption.
Qed.

(** The delays slept by a run are an initial segment of the backoff
    sequence, whatever the URI and the probes. *)
Lemma sleeps_are_delays `{DelayOps D}
    (sock : nat -> answer Z) (uri : string) (N : Z) (d : D) :
  exists k, sleeps (events (start (Startup.wait_for_neo4j sock uri N d))) = delays d k.
Proof.
  destruct (Startup.extract_host_port uri) as [e|[host port]] eqn:Hparse.
  - exists 0%nat. unfold start, Startup.wait_for_neo4j. rewrite Hparse. reflexivity.
  - destruct (wait_for_neo4j_run sock host port uri N d Hparse) as (_ & _ & _ & Hs & _).
    eexists. exact Hs.
Qed.

(** C4, as amended.  With a binary64 initial delay in (0, 10], whatever
    the URI, the retry bound and the probes: the delay slept after attempt
    [i] (counted from 0) is the initial delay updated [i] times by
    [min(retry_delay * 1.2, 10)] in binary64 arithmetic, is above 0 and at
    most 10, and is at most the delay slept after the next attempt.  With
    the default initial delay 2.0 it is the entry [i] of [default_delays]
    and 10 from the tenth sleep on, which is within 2e-15 of the closed
    form min(2 * 1.2^i, 10).  The copy in [main.py] sleeps the same delays.
    (The multiplier 1.2 and the cap 10 are constants of the code.) *)
Theorem backoff_delays_binary64
    (sock : nat -> answer Z) (uri : string) (N : Z) (d0 : float) (i : nat) (x : float) :
  (0 <? d0)%float = true ->
  (d0 <=? 10)%float = true ->
  let slept := sleeps (events (start (Startup.wait_for_neo4j sock uri N d0))) in
  slept !! i = Some x ->
  x = delay_after d0 i
  /\ (0 <? x)%float = true
  /\ (x <=? 10)%float = true
  /\ (forall y, slept !! S i = Some y -> (x <=? y)%float = true)
  /\ (d0 = 2%float ->
      x = nth i default_delays 10%float
      /\ ((9 <= i)%nat -> x = 10%float)
      /\ exists q : Q,
           float_value x = Some q
           /\ (Qabs (q - closed_form 2 i) <= 2 # 1000000000000000)%Q)
  /\ sleeps (events (start (Main.wait_for_neo4j sock uri N d0))) = slept.
Proof.
  intros Hpos Hle slept Hx.
  destruct (sleeps_are_delays sock uri N d0) as [k Hk]. fold slept in Hk.
  rewrite Hk in Hx |- *. apply delays_lookup in Hx. subst x.
  split; [reflexivity|].
  destruct (delay_after_range_b64 d0 i Hpos Hle) as [Hi0 Hi10].
  split; [exact Hi0|]. split; [exact Hi10|].
  split; [|split; [|exact Hk]].
  - intros y Hy. apply delays_lookup in Hy. subst y.
    apply delay_after_mono_b64; assumption.
  - intros ->. split; [apply delay_after_default|].
    split; [|apply delay_after_default_close].
    intros Hi. replace i with (9 + (i - 9))%nat by lia.
    apply delay_after_default_capped.
Qed.

Lemma backoff_delays_binary64_witness :
  let x := 0x1.3333333333333p+1%float in
  (x <=? 10)%float = true
  /\ x = nth 1 default_delays 10%float
  /\ exists q : Q,
       float_value x = Some q
       /\ (Qabs (q - closed_form 2 1) <= 2 # 1000000000000000)%Q.
Proof.
  destruct (backoff_delays_binary64
              (fun _ => Gives 111) "db:7687" 3 2%float 1 0x1.3333333333333p+1%float
              eq_refl eq_refl eq_refl)
    as (_ & _ & Hcap & _ & Hdefault & _).
  destruct (Hdefault eq_refl) as (Hnth & _ & Hclose).
  split; [exact Hcap|]. split; [exact Hnth|exact Hclose].
Defined.

(** C4, the claim as stated fails, in three ways.  The first sleep uses
    [retry_delay] as passed, before any capping: with an initial delay of
    20 the delays slept are 20, above the cap, and then 10, below the
    first.  The delays are rounded at every update: with the default
    initial delay 2.0 the delay slept after attempt 6 is 5.9719679999999995,
    which is neither the closed form 2 * 1.2^6 = 5.971968 nor the binary64
    number nearest to it.  And the update cannot move the smallest positive
    binary64 number, which is slept again and again while the closed form
    grows. *)
Lemma delays_differ_from_closed_form :
  (sleeps (events (start (Startup.wait_for_neo4j
                            (fun _ => Gives 111) "db:7687" 3 20%float)))
   = [20%float; 10%float]
   /\ (20 <=? 10)%float = false)
  /\ (let slept := sleeps (events (start (Startup.wait_for_neo4j
                                            (fun _ => Throws gaierror)
                                            "bolt://neo4j:7687" 30 lit_2_0))) in
      let nearest := 0x1.7e34b945308bcp+2%float in
      exists (x : float) (q q' : Q),
        slept !! 6%nat = Some x
        /\ float_value x = Some q
        /\ float_value nearest = Some q'
        /\ ~ (q == closed_form 2 6)%Q
        /\ (x <? nearest)%float = true
        /\ (Qabs (q' - closed_form 2 6) < Qabs (q - closed_form 2 6))%Q)
  /\ (let tiny := 0x1p-1074%float in
      (0 <? tiny)%float = true
      /\ (tiny <=? 10)%float = true
      /\ sleeps (events (start (Startup.wait_for_neo4j
                                  (fun _ => Gives 111) "db:7687" 4 tiny)))
         = [tiny; tiny; tiny]
      /\ exists t : Q,
           float_value tiny = Some t /\ (t < closed_form t 1)%Q).
Proof.
  split; [split; vm_compute; reflexivity|].
  split.
  - cbv zeta. eexists _, _, _.
    split; [vm_compute; reflexivity|].
    split; [vm_compute; reflexivity|].
    split; [vm_compute; reflexivity|].
    split; [intros Heq; vm_compute in Heq; discriminate|].
    split; vm_compute; reflexivity.
  - cbv zeta. split; [vm_compute; reflexivity|].
    split; [vm_compute; reflexivity|].
    split; [vm_compute; reflexivity|].
    eexists. split; [vm_compute; reflexivity|].
    vm_compute. reflexivity.
Qed.

(** The default policy in binary64: with 30 failing attempts the 29 delays
    slept start at 2.0, never decrease and never exceed 10. *)
Example default_policy_binary64 :
  let slept := sleeps (events (start (Startup.wait_for_neo4j (D:=float)
                                        (fun _ => Throws gaierror)
                                        "bolt://neo4j:7687" 30 lit_2_0))) in
  length slept = 29%nat
  /\ head slept = Some 2%float
  /\ nondecreasing_b64 slept = true
  /\ forallb (fun d => PrimFloat.leb d 10) slept = true.
Proof. vm_compute. repeat split. Qed.


(** ** Sequencing in the monad of effects *)

Section MonadFacts.
Context {E : Type}.

Lemma bind_value {A B} (m : M E A) (k : A -> M E B) (n : nat) (v : A) (n' : nat) :
  value (m n) = Return v ->
  ncalls (m n) = n' ->
  (m ≫= k) n
  = Run (value (k v n')) (events (m n) ++ events (k v n'))%list (ncalls (k v n')).
Proof.
  intros Hv Hn. unfold mbind, M_bind, bind. rewrite Hv, Hn. reflexivity.
Qed.

Lemma bind_prepend {A B} (m : M E A) (k : A -> M E B) (n : nat) (v : A) (n' : nat) :
  value (m n) = Return v ->
  ncalls (m n) = n' ->
  (m ≫= k) n = prepend (events (m n)) (k v n').
Proof. exact (bind_value m k n v n'). Qed.

Lemma bind_fn_value {A B} (m : M E A) (k : A -> M E B) (n : nat) (v : A) (n' : nat) :
  value (m n) = Return v ->
  ncalls (m n) = n' ->
  bind m k n = prepend (events (m n)) (k v n').
Proof. exact (bind_value m k n v n'). Qed.

Lemma for_in_value {X S} (xs : list X) (body : X -> S -> M E S) (f : X -> S -> S) :
  (forall x acc k, value (body x acc k) = Return (f x acc) /\ ncalls (body x acc k) = k) ->
  forall acc n,
    value (for_in xs body acc n) = Return (foldl (fun a x => f x a) acc xs)
    /\ ncalls (for_in xs body acc n) = n.
Proof.
  intros Hbody. induction xs as [|x xs IH]; intros acc n; cbn [for_in foldl].
  - split; reflexivity.
  - destruct (Hbody x acc n) as [Hv Hn].
    rewrite (bind_fn_value _ _ _ _ _ Hv Hn). cbn [prepend value ncalls]. apply IH.
Qed.

Lemma bind_raise {A B} (m : M E A) (k : A -> M E B) (n : nat) (e : exception) :
  value (m n) = Raise e ->
  (m ≫= k) n = Run (Raise e) (events (m n)) (ncalls (m n)).
Proof. intros Hv. unfold mbind, M_bind, bind. rewrite Hv. reflexivity. Qed.

Lemma try_except_return {A} (body : M E A) (handler : exception -> M E A)
    (n : nat) (v : A) :
  value (body n) = Return v -> try_except body handler n = body n.
Proof. intros Hv. unfold try_except. rewrite Hv. reflexivity. Qed.

Lemma try_except_raise {A} (body : M E A) (handler : exception -> M E A)
    (n : nat) (e : exception) :
  value (body n) = Raise e ->
  try_except body handler n = prepend (events (body n)) (handler e (ncalls (body n))).
Proof. intros Hv. unfold try_except. rewrite Hv. reflexivity. Qed.

Lemma last_app_some {X} (l1 l2 : list X) (y : X) :
  last l2 = Some y -> last (l1 ++ l2)%list = Some y.
Proof. intros Hy. rewrite last_app, Hy. reflexivity. Qed.

End MonadFacts.

(** ** The startup sequencers *)

(** C7, as amended.  In [lifespan] of [main.py], whenever the driver
    returns, [True] or [False], the sequencer does not terminate the
    process: on [False] it logs an error, then in both cases it calls
    [initialize_graphiti], logs how that call ended, and reaches its [yield]
    (serving) whether or not the initialization raised. *)
Theorem lifespan_continues_on_failure `{DelayOps D}
    (sock : nat -> answer Z) (initialize_graphiti : answer unit)
    (neo4j_uri : string) (ready : bool) :
  value (start (Main.wait_for_neo4j sock neo4j_uri 30 lit_2_0)) = Return ready ->
  let w := start (Main.wait_for_neo4j sock neo4j_uri 30 lit_2_0) in
  let r := start (Main.lifespan sock initialize_graphiti neo4j_uri) in
  value r = Return tt
  /\ events r
     = (events w
        ++ (if ready then []
            else [Log ERROR "Failed to connect to Neo4j, but continuing startup" []])
        ++ [Call "initialize_graphiti";
            match initialize_graphiti with
            | Gives _ => Log INFO "Graphiti initialized successfully" []
            | Throws e => Log ERROR "Failed to initialize Graphiti: {e}" [AExc e]
            end;
            Yield;
            Log INFO "Shutting down Graphiti server" []])%list.
Proof.
  intros Hready w r. subst w r. unfold Main.lifespan, start in *.
  rewrite (bind_value _ _ 0%nat ready _ Hready eq_refl).
  generalize (events (Main.wait_for_neo4j sock neo4j_uri 30 lit_2_0 0%nat)).
  generalize (ncalls (Main.wait_for_neo4j sock neo4j_uri 30 lit_2_0 0%nat)).
  clear Hready. intros n evs.
  destruct ready, initialize_graphiti as [[]|e]; split; vm_compute; reflexivity.
Qed.

Lemma lifespan_continues_on_failure_witness :
  let r := start (Main.lifespan (D:=float)
                    (fun _ => Gives 111) (Throws RuntimeError) "bolt://neo4j:7687") in
  value r = Return tt.
Proof.
  exact (proj1 (lifespan_continues_on_failure (D:=float)
                  (fun _ => Gives 111) (Throws RuntimeError) "bolt://neo4j:7687"
                  false eq_refl)).
Defined.

(** C7, the claim as stated fails on the sequencer of [startup.py]: when
    the driver returns [False], [main] logs "Failed to connect to Neo4j,
    exiting" and leaves with [sys.exit(1)]; the server is never started. *)
Lemma startup_main_exits_on_failure :
  let r := start (Startup.main (D:=float)
                    (fun _ => Gives 111) (Gives tt) "bolt://neo4j:7687") in
  value r = Exit 1
  /\ exit_status (value r) = 1
  /\ last (events r) = Some (Log ERROR "Failed to connect to Neo4j, exiting" [])
  /\ existsb is_call (events r) = false.
Proof. vm_compute. repeat split. Qed.


(** ** The checks of [verify_deployment.py] *)

Section VerifyFacts.
Variable environ : gmap string string.
Variable net : nat -> answer Z.

Lemma check_neo4j_connection_run uri user password n :
  value (Verify.check_neo4j_connection uri user password n)
  = Return (Py.startswith uri "bolt://")
  /\ ncalls (Verify.check_neo4j_connection uri user password n) = n.
Proof.
  unfold Verify.check_neo4j_connection.
  destruct (Py.startswith uri "bolt://"); split; reflexivity.
Qed.

Lemma check_server_health_run url n :
  value (Verify.check_server_health net url n) = Return (is_200 (net n))
  /\ ncalls (Verify.check_server_health net url n) = S n.
Proof.
  unfold Verify.check_server_health, Verify.get_status, try_except, mbind, M_bind, bind, external.
  cbv beta. unfold is_200.
  destruct (net n) as [s|e]; cbv beta iota zeta delta [value ncalls events].
  - destruct (s =? 200); split; reflexivity.
  - split; reflexivity.
Qed.

Lemma check_api_endpoints_run url n :
  value (Verify.check_api_endpoints net url n)
  = Return (<["healthcheck" := is_200 (net (S n))]> (<["root" := is_200 (net n)]> ∅))
  /\ ncalls (Verify.check_api_endpoints net url n) = S (S n).
Proof.
  unfold Verify.check_api_endpoints. cbv zeta.
  match goal with |- context [for_in _ ?b _] => set (body := b) end.
  assert (Hbody : forall name endpoint results k,
             value (body (name, endpoint) results k)
             = Return (<[name := is_200 (net k)]> results)
             /\ ncalls (body (name, endpoint) results k) = S k).
  { intros name endpoint results k. subst body. cbv beta iota.
    unfold try_except, Verify.get_status, mbind, M_bind, bind, external, is_200.
    cbv beta.
    destruct (net k) as [s|e]; cbv beta iota zeta delta [value ncalls events].
    - destruct (s =? 200); split; reflexivity.
    - split; reflexivity. }
  clearbody body. cbn [for_in].
  destruct (Hbody "root" "/" ∅ n) as [Hv1 Hn1].
  rewrite (bind_fn_value _ _ _ _ _ Hv1 Hn1). cbn [prepend value ncalls].
  destruct (Hbody "healthcheck" "/healthcheck" (<["root" := is_200 (net n)]> ∅) (S n))
    as [Hv2 Hn2].
  rewrite (bind_fn_value _ _ _ _ _ Hv2 Hn2). cbn [prepend value ncalls].
  split; reflexivity.
Qed.

Lemma getitem_insert {V} (d : gmap string V) (k : string) (v : V) :
  Verify.getitem (<[k := v]> d) k = mret v.
Proof. unfold Verify.getitem. rewrite lookup_insert_eq. reflexivity. Qed.

Lemma check_environment_variables_run n :
  value (Verify.check_environment_variables environ n) = Return (env_results environ)
  /\ ncalls (Verify.check_environment_variables environ n) = n.
Proof.
  unfold Verify.check_environment_variables. cbv zeta.
  match goal with |- context [for_in _ ?b ∅] => set (req := b) end.
  match goal with |- context [mbind (fun r => for_in _ ?b r)] => set (opt := b) end.
  assert (Hreq : forall var results k,
             value (req var results k) = Return (<[var := var_set environ var]> results)
             /\ ncalls (req var results k) = k).
  { intros var results k. subst req. cbv beta zeta. rewrite getitem_insert.
    unfold var_set. destruct (match environ !! var with Some v => _ | None => _ end);
      split; reflexivity. }
  assert (Hopt : forall var results k,
             value (opt var results k) = Return (<[var := var_set environ var]> results)
             /\ ncalls (opt var results k) = k).
  { intros var results k. subst opt. cbv beta zeta. rewrite getitem_insert.
    unfold var_set. destruct (match environ !! var with Some v => _ | None => _ end);
      split; reflexivity. }
  clearbody req opt.
  destruct (for_in_value ["OPENAI_API_KEY"; "NEO4J_USER"; "NEO4J_PASSWORD"] req _ Hreq ∅ n)
    as [Hv Hn].
  rewrite (bind_value _ _ _ _ _ Hv Hn). cbn [prepend value ncalls].
  exact (for_in_value ["MODEL_NAME"; "EMBEDDING_MODEL_NAME"; "SEMAPHORE_LIMIT"]
           opt _ Hopt _ n).
Qed.

Lemma required_env_ok_eq :
  forallb (fun var => default false (env_results environ !! var))
          ["OPENAI_API_KEY"; "NEO4J_USER"; "NEO4J_PASSWORD"]
  = forallb (var_set environ) ["OPENAI_API_KEY"; "NEO4J_USER"; "NEO4J_PASSWORD"].
Proof.
  unfold env_results. cbn [foldl forallb].
  repeat first [rewrite lookup_insert_eq | rewrite lookup_insert_ne by discriminate].
  reflexivity.
Qed.

Lemma all_values_two (b1 b2 : bool) :
  Verify.all_values (<["healthcheck" := b2]> (<["root" := b1]> ∅)) = forallb id [b1; b2].
Proof. destruct b1, b2; vm_compute; reflexivity. Qed.

Lemma main_run :
  let r := start (Verify.main environ net) in
  value r = Return (if composite_result environ net then 0 else 1)
  /\ ncalls r = 3%nat
  /\ Verify.overall_status (events r) = Some (composite_result environ net).
Proof.
  cbv zeta. unfold Verify.main, start.
  erewrite bind_prepend by reflexivity. cbv beta.
  destruct (check_environment_variables_run 0) as [Hv1 Hn1].
  rewrite (bind_prepend _ _ _ _ _ Hv1 Hn1). cbv beta zeta.
  match goal with |- context [Verify.check_neo4j_connection ?u ?a ?b] =>
    destruct (check_neo4j_connection_run u a b 0) as [Hv2 Hn2] end.
  rewrite (bind_prepend _ _ _ _ _ Hv2 Hn2). cbv beta zeta.
  destruct (check_server_health_run "http://localhost:8000" 0) as [Hv3 Hn3].
  rewrite (bind_prepend _ _ _ _ _ Hv3 Hn3). cbv beta zeta.
  destruct (check_api_endpoints_run "http://localhost:8000" 1) as [Hv4 Hn4].
  rewrite (bind_prepend _ _ _ _ _ Hv4 Hn4). cbv beta zeta.
  clear Hv1 Hn1 Hv2 Hn2 Hv3 Hn3 Hv4 Hn4.
  rewrite required_env_ok_eq, all_values_two.
  unfold composite_result.
  generalize (events (Verify.check_environment_variables environ 0%nat)).
  match goal with |- context [events (Verify.check_neo4j_connection ?u ?a ?b 0%nat)] =>
    generalize (events (Verify.check_neo4j_connection u a b 0%nat)) end.
  generalize (events (Verify.check_server_health net "http://localhost:8000" 0%nat)).
  generalize (events (Verify.check_api_endpoints net "http://localhost:8000" 1%nat)).
  generalize (forallb (var_set environ) ["OPENAI_API_KEY"; "NEO4J_USER"; "NEO4J_PASSWORD"]).
  generalize (Py.startswith (default "bolt://neo4j:7687" (environ !! "NEO4J_URI")) "bolt://").
  cbn [forallb id].
  generalize (is_200 (net 0%nat)), (is_200 (net 1%nat)), (is_200 (net 2%nat)).
  intros a2 a1 h u r e4 e3 e2 e1.
  split; [destruct a2, a1, h, u, r; reflexivity|].
  split; [destruct a2, a1, h, u, r; reflexivity|].
  unfold Verify.overall_status, prepend. cbn [events].
  rewrite !omap_app. do 5 apply last_app_some.
  destruct a2, a1, h, u, r; vm_compute; reflexivity.
Qed.

End VerifyFacts.

(** The script of [verify_deployment.py] leaves with the code [main]
    returns. *)
Lemma verify_script_run (environ : gmap string string) (net : nat -> answer Z) :
  let r := start (Verify.script environ net) in
  value r = Exit (if composite_result environ net then 0 else 1)
  /\ Verify.overall_status (events r) = Some (composite_result environ net).
Proof.
  destruct (main_run environ net) as (Hv & Hn & Ho).
  cbv zeta. unfold Verify.script, start in *.
  rewrite (bind_prepend _ _ _ _ _ Hv Hn).
  unfold prepend, sys_exit. cbn [value events ncalls].
  rewrite app_nil_r. split; [reflexivity|exact Ho].
Qed.

Lemma composite_result_required (environ : gmap string string) (net : nat -> answer Z)
    (var : string) :
  In var ["OPENAI_API_KEY"; "NEO4J_USER"; "NEO4J_PASSWORD"] ->
  var_set environ var = false ->
  composite_result environ net = false.
Proof.
  intros Hin Hvar. unfold composite_result. cbn [forallb].
  destruct Hin as [<-|[<-|[<-|[]]]]; rewrite Hvar;
    rewrite ?andb_false_r; reflexivity.
Qed.

Lemma composite_result_reads (environ environ' : gmap string string)
    (net : nat -> answer Z) :
  (forall var, In var ["OPENAI_API_KEY"; "NEO4J_USER"; "NEO4J_PASSWORD"; "NEO4J_URI"] ->
               environ' !! var = environ !! var) ->
  composite_result environ' net = composite_result environ net.
Proof.
  intros Hsame. unfold composite_result, var_set. cbn [forallb].
  rewrite !Hsame by (cbn; tauto). reflexivity.
Qed.

(** [check_health] returns whether the server answered 200, and never
    raises. *)
Lemma check_health_run (target : answer Z) (n : nat) :
  value (Healthcheck.check_health target n) = Return (is_200 target)
  /\ ncalls (Healthcheck.check_health target n) = S n.
Proof.
  destruct target as [status|e]; [|split; vm_compute; reflexivity].
  unfold Healthcheck.check_health, is_200.
  set (url := "http://localhost:8000/healthcheck").
  assert (Hopen : Healthcheck.urlopen_getcode (Gives status) url n
                  = prepend [Get url]
                      (if (200 <=? status) && (status <? 300)
                       then Run (Return status) [] (S n)
                       else Run (Raise (HTTPError status)) [] (S n))).
  { unfold Healthcheck.urlopen_getcode.
    erewrite bind_prepend by reflexivity.
    destruct ((200 <=? status) && (status <? 300)); reflexivity. }
  destruct ((200 <=? status) && (status <? 300)) eqn:Hrange.
  - match goal with |- context [try_except ?b ?h n] =>
      assert (Hbody : b n = prepend [Get url]
                              (Run (Return (status =? 200))
                                   (if status =? 200
                                    then [Print "Server is healthy" []]
                                    else [Print "Server returned status code: {response.getcode()}"
                                                [AInt status]])
                                   (S n)))
    end.
    { rewrite (bind_prepend _ _ n status (S n)); [|rewrite Hopen; reflexivity..].
      rewrite Hopen. destruct (status =? 200); reflexivity. }
    rewrite (try_except_return _ _ n (status =? 200)) by (rewrite Hbody; reflexivity).
    rewrite Hbody. split; reflexivity.
  - assert (Hs : (status =? 200) = false).
    { destruct (status =? 200) eqn:Hs; [|reflexivity].
      apply Z.eqb_eq in Hs. subst status. discriminate. }
    rewrite Hs.
    match goal with |- context [try_except ?b ?h n] =>
      assert (Hbody : b n = Run (Raise (HTTPError status)) [Get url] (S n))
    end.
    { rewrite bind_raise with (e := HTTPError status); rewrite Hopen; reflexivity. }
    rewrite (try_except_raise _ _ n (HTTPError status)) by (rewrite Hbody; reflexivity).
    rewrite Hbody. split; reflexivity.
Qed.

(** ** The composite result and the exit codes *)

(** C5.  The composite result [main] reports is the conjunction of: the
    three required variables are present and not blank, the dependency URI
    starts with ['bolt://'], the liveness GET answers 200, and both endpoint
    GETs answer 200.  Hence it is false as soon as one required variable is
    missing or blank, whatever the network answers, and it is the same for
    two environments that agree on the three required variables and on
    [NEO4J_URI]: the optional variables never change it. *)
Theorem composite_is_conjunction (environ : gmap string string) (net : nat -> answer Z) :
  let reported env := Verify.overall_status (events (start (Verify.main env net))) in
  reported environ = Some (composite_result environ net)
  /\ (forall var,
        In var ["OPENAI_API_KEY"; "NEO4J_USER"; "NEO4J_PASSWORD"] ->
        var_set environ var = false ->
        reported environ = Some false)
  /\ (forall environ' : gmap string string,
        (forall var,
           In var ["OPENAI_API_KEY"; "NEO4J_USER"; "NEO4J_PASSWORD"; "NEO4J_URI"] ->
           environ' !! var = environ !! var) ->
        reported environ' = reported environ).
Proof.
  intros reported.
  assert (Hrep : forall env, reported env = Some (composite_result env net)).
  { intros env. apply (main_run env net). }
  split; [apply Hrep|]. split.
  - intros var Hin Hvar. rewrite Hrep.
    rewrite (composite_result_required environ net var Hin Hvar). reflexivity.
  - intros environ' Hsame. rewrite !Hrep.
    rewrite (composite_result_reads environ environ' net Hsame). reflexivity.
Qed.

(** C8.  The health-check script leaves with status 0 when the server
    answers 200 to the GET of [/healthcheck], and with status 1 for any
    other status and for any exception.  The verification script runs its
    four checks, reports their conjunction [composite_result] as the
    overall status and leaves through [sys.exit] with status 0 if that
    composite result is true and with 1 otherwise; so its status is 0 if
    and only if the composite result is true. *)
Theorem exit_codes (target : answer Z)
    (environ : gmap string string) (net : nat -> answer Z) :
  exit_status (value (start (Healthcheck.script target)))
  = (if is_200 target then 0 else 1)
  /\ let r := start (Verify.script environ net) in
     value r = Exit (if composite_result environ net then 0 else 1)
     /\ Verify.overall_status (events r) = Some (composite_result environ net)
     /\ exit_status (value r) = (if composite_result environ net then 0 else 1)
     /\ (exit_status (value r) = 0 <-> composite_result environ net = true).
Proof.
  split.
  - destruct (check_health_run target 0) as [Hv Hn].
    unfold Healthcheck.script, start. rewrite (bind_prepend _ _ _ _ _ Hv Hn).
    destruct (is_200 target); reflexivity.
  - destruct (verify_script_run environ net) as [Hv Ho]. cbv zeta in *.
    rewrite Hv.
    split; [reflexivity|]. split; [exact Ho|]. split; [reflexivity|].
    destruct (composite_result environ net); cbn; split; congruence.
Qed.

(** C9.  Every HTTP check converts an exception of its GET into [False]:
    the liveness check returns whether its GET answered 200, the endpoint
    check records the same for [root] and then for [healthcheck], and
    neither raises.  So for every environment and every behaviour of the
    network, [main] runs to its end, reports a composite result and returns
    the code 0 or 1, with which the script leaves. *)
Theorem http_checks_never_propagate (environ : gmap string string) (net : nat -> answer Z) :
  (forall url n,
     value (Verify.check_server_health net url n) = Return (is_200 (net n)))
  /\ (forall url n, exists results : gmap string bool,
        value (Verify.check_api_endpoints net url n) = Return results
        /\ results !! "root" = Some (is_200 (net n))
        /\ results !! "healthcheck" = Some (is_200 (net (S n))))
  /\ (exists code,
        value (start (Verify.main environ net)) = Return code
        /\ (code = 0 \/ code = 1)
        /\ is_Some (Verify.overall_status (events (start (Verify.main environ net)))))
  /\ (exists code,
        value (start (Verify.script environ net)) = Exit code
        /\ (code = 0 \/ code = 1)).
Proof.
  split; [intros url n; apply check_server_health_run|].
  split.
  { intros url n. destruct (check_api_endpoints_run net url n) as [Hv _].
    eexists. split; [exact Hv|]. split.
    - rewrite lookup_insert_ne by discriminate. apply lookup_insert_eq.
    - apply lookup_insert_eq. }
  destruct (main_run environ net) as (Hv & _ & Ho).
  destruct (verify_script_run environ net) as [Hs _]. cbv zeta in *.
  split.
  - eexists. split; [exact Hv|]. split; [|rewrite Ho; eexists; reflexivity].
    destruct (composite_result environ net); [left|right]; reflexivity.
  - eexists. split; [exact Hs|].
    destruct (composite_result environ net); [left|right]; reflexivity.
Qed.

(** * Further properties *)

(** ** What a computation may emit *)

Section EmitsFacts.
Context {E : Type} (P : E -> Prop).

Lemma emits_ret {A} (v : A) : emits P (mret v : M E A).
Proof. intros n. constructor. Qed.

Lemma emits_raise {A} (e : exception) : emits P (raise e : M E A).
Proof. intros n. constructor. Qed.

Lemma emits_sys_exit {A} (code : Z) : emits P (sys_exit code : M E A).
Proof. intros n. constructor. Qed.

Lemma emits_emit (ev : E) : P ev -> emits P (emit ev).
Proof. intros Hev n. repeat constructor. exact Hev. Qed.

Lemma emits_external {R} (ev : E) (oracle : nat -> answer R) :
  P ev -> emits P (external ev oracle).
Proof.
  intros Hev n. unfold external. destruct (oracle n); repeat constructor; exact Hev.
Qed.

Lemma emits_bind_fn {A B} (m : M E A) (k : A -> M E B) :
  emits P m -> (forall v, emits P (k v)) -> emits P (bind m k).
Proof.
  intros Hm Hk n. unfold bind. specialize (Hm n).
  destruct (m n) as [[v|e|c] evs n']; cbn [value events ncalls] in *; try exact Hm.
  apply Forall_app. split; [exact Hm|apply Hk].
Qed.

Lemma emits_bind {A B} (m : M E A) (k : A -> M E B) :
  emits P m -> (forall v, emits P (k v)) -> emits P (m ≫= k).
Proof. exact (emits_bind_fn m k). Qed.

Lemma emits_try_except {A} (body : M E A) (handler : exception -> M E A) :
  emits P body -> (forall e, emits P (handler e)) -> emits P (try_except body handler).
Proof.
  intros Hb Hh n. unfold try_except. specialize (Hb n).
  destruct (body n) as [[v|e|c] evs n']; cbn [value events ncalls] in *; try exact Hb.
  apply Forall_app. split; [exact Hb|apply Hh].
Qed.

Lemma emits_for_in {X S} (xs : list X) (body : X -> S -> M E S) :
  (forall x acc, emits P (body x acc)) -> forall acc, emits P (for_in xs body acc).
Proof.
  intros Hbody. induction xs as [|x xs IH]; intros acc; cbn [for_in].
  - intros n. constructor.
  - apply emits_bind_fn; [apply Hbody|exact IH].
Qed.

End EmitsFacts.

(** Steps through the syntax of a computation. *)
Ltac emits_step :=
  first
    [ apply emits_bind | apply emits_try_except | apply emits_for_in
    | apply emits_ret | apply emits_raise | apply emits_sys_exit
    | apply emits_emit | apply emits_external
    | match goal with
      | |- emits _ (if ?b then _ else _) => destruct b
      | |- emits _ (match ?x with _ => _ end) => destruct x
      | |- forall _, _ => intro
      end ].

(** ** More on the retry loop *)

Lemma attempts_emit_driver_events `{DelayOps D} (sock : nat -> answer Z)
    (host : string) (port mx : Z) (rng : list Z) :
  forall d : D, emits (driver_event host port) (Startup.attempts sock rng host port mx d).
Proof.
  induction rng as [|a rng IH]; intros d; cbn [Startup.attempts].
  - repeat emits_step; exact I.
  - unfold Startup.connect_ex.
    repeat first [apply IH | emits_step]; cbn; auto.
Qed.

Lemma first_ok_none_inv sock n : forall c,
  first_ok sock c n = None ->
  forall j, (j < n)%nat -> probe_ok (sock (c + j)%nat) = false.
Proof.
  induction n as [|n IH]; intros c Hnone j Hj; [lia|]. cbn in Hnone.
  destruct (probe_ok (sock c)) eqn:Hc; [discriminate|].
  destruct (first_ok sock (S c) n) as [i|] eqn:Hi; [discriminate|].
  destruct j as [|j]; [rewrite Nat.add_0_r; exact Hc|].
  replace (c + S j)%nat with (S c + j)%nat by lia. apply (IH (S c) Hi). lia.
Qed.

Lemma first_ok_some_inv sock n : forall c i,
  first_ok sock c n = Some i -> probe_ok (sock (c + i)%nat) = true.
Proof.
  induction n as [|n IH]; intros c i; cbn; [discriminate|].
  destruct (probe_ok (sock c)) eqn:Hc.
  - intros [= <-]. rewrite Nat.add_0_r. exact Hc.
  - destruct (first_ok sock (S c) n) as [j|] eqn:Hj; cbn; [|discriminate].
    intros [= <-]. replace (c + S j)%nat with (S c + j)%nat by lia. apply IH. exact Hj.
Qed.

Lemma succeeds_iff sock n :
  succeeds sock 0 n = true <-> exists j, (j < n)%nat /\ probe_ok (sock j) = true.
Proof.
  unfold succeeds. destruct (first_ok sock 0 n) as [i|] eqn:Hi.
  - split; [intros _|reflexivity]. exists i. split.
    + apply (first_ok_lt sock n 0 i Hi).
    + apply (first_ok_some_inv sock n 0 i Hi).
  - split; [discriminate|]. intros (j & Hj & Hok).
    pose proof (first_ok_none_inv sock n 0 Hi j Hj) as Hko. cbn in Hko. congruence.
Qed.

Lemma wait_for_neo4j_parse_error `{DelayOps D} (sock : nat -> answer Z)
    (uri : string) (N : Z) (d : D) (e : exception) :
  Startup.extract_host_port uri = inl e ->
  start (Startup.wait_for_neo4j sock uri N d) = Run (Raise e) [] 0.
Proof. intros Hparse. unfold start, Startup.wait_for_neo4j. rewrite Hparse. reflexivity. Qed.

(** X1.  With [max_retries] zero or negative the loop body never runs: no
    probe is made and nothing is slept; the driver logs the address and the
    final error, and returns [False]. *)
Theorem no_probe_when_max_retries_not_positive `{DelayOps D}
    (sock : nat -> answer Z) (uri host : string) (port N : Z) (d : D) :
  Startup.extract_host_port uri = inr (host, port) ->
  N <= 0 ->
  start (Startup.wait_for_neo4j sock uri N d)
  = Run (Return false)
        [Log INFO "Waiting for Neo4j at {host}:{port}" [AStr host; AInt port];
         Log ERROR "Neo4j failed to become ready after all retries" []]
        0.
Proof.
  intros Hparse HN. unfold start, Startup.wait_for_neo4j. rewrite Hparse.
  unfold Py.range. replace (Z.to_nat N) with 0%nat by lia. reflexivity.
Qed.

Lemma no_probe_when_max_retries_not_positive_witness :
  probes (events (start (Startup.wait_for_neo4j (D:=float)
                           (fun _ => Gives 0) "db:7687" (-1) lit_2_0))) = 0%nat.
Proof.
  rewrite (no_probe_when_max_retries_not_positive (D:=float)
             (fun _ => Gives 0) "db:7687" "db" 7687 (-1) lit_2_0 eq_refl ltac:(lia)).
  reflexivity.
Defined.

Lemma returns_true_iff_some_probe_succeeds_aux `{DelayOps D}
    (sock : nat -> answer Z) (uri : string) (N : Z) (d : D) :
  value (start (Startup.wait_for_neo4j sock uri N d)) = Return true
  <-> (exists host port, Startup.extract_host_port uri = inr (host, port))
      /\ (exists j, (j < Z.to_nat N)%nat /\ probe_ok (sock j) = true).
Proof.
  destruct (Startup.extract_host_port uri) as [e|[host port]] eqn:Hparse.
  - rewrite (wait_for_neo4j_parse_error sock uri N d e Hparse). cbn [value].
    split; [discriminate|]. intros [(h & p & Hhp) _]. discriminate.
  - destruct (wait_for_neo4j_run sock host port uri N d Hparse) as (Hv & _).
    rewrite Hv, <- succeeds_iff. split.
    + intros [= Hok]. split; [eauto|exact Hok].
    + intros [_ ->]. reflexivity.
Qed.

(** X2.  The driver returns [True] exactly when a host and a port are
    extracted from the URI and one of the first [max_retries] probes
    succeeds. *)
Theorem returns_true_iff_some_probe_succeeds `{DelayOps D}
    (sock : nat -> answer Z) (uri : string) (N : Z) (d : D) :
  value (start (Startup.wait_for_neo4j sock uri N d)) = Return true
  <-> (exists host port, Startup.extract_host_port uri = inr (host, port))
      /\ (exists j, (j < Z.to_nat N)%nat /\ probe_ok (sock j) = true).
Proof. exact (returns_true_iff_some_probe_succeeds_aux sock uri N d). Qed.

Lemma wait_for_neo4j_driver_events `{DelayOps D}
    (sock : nat -> answer Z) (uri host : string) (port N : Z) (d : D) :
  Startup.extract_host_port uri = inr (host, port) ->
  Forall (driver_event host port) (events (start (Startup.wait_for_neo4j sock uri N d))).
Proof.
  intros Hparse. unfold start, Startup.wait_for_neo4j. rewrite Hparse.
  apply emits_bind; [apply emits_emit; exact I|].
  intros _. apply attempts_emit_driver_events.
Qed.

(** X3.  Every probe of a run goes to the extracted host and port, and the
    driver neither calls a collaborator nor yields. *)
Theorem probes_only_extracted_address `{DelayOps D}
    (sock : nat -> answer Z) (uri host : string) (port N : Z) (d : D) :
  Startup.extract_host_port uri = inr (host, port) ->
  let tr := events (start (Startup.wait_for_neo4j sock uri N d)) in
  (forall h p, In (Connect h p) tr -> h = host /\ p = port)
  /\ (forall name, ~ In (Call name) tr)
  /\ ~ In Yield tr.
Proof.
  intros Hparse tr.
  assert (Hall : Forall (driver_event host port) tr)
    by (apply wait_for_neo4j_driver_events; exact Hparse).
  rewrite Forall_forall in Hall.
  split; [|split].
  - intros h p Hin. apply list_elem_of_In in Hin. exact (Hall _ Hin).
  - intros name Hin. apply list_elem_of_In in Hin. exact (Hall _ Hin).
  - intros Hin. apply list_elem_of_In in Hin. exact (Hall _ Hin).
Qed.

Lemma probes_only_extracted_address_witness :
  let tr := events (start (Startup.wait_for_neo4j (D:=float)
                             (fun _ => Gives 111) "bolt://neo4j:7687" 2 lit_2_0)) in
  (forall h p, In (Connect h p) tr -> h = "/neo4j" /\ p = 7687)
  /\ (forall name, ~ In (Call name) tr)
  /\ ~ In Yield tr.
Proof.
  exact (probes_only_extracted_address (D:=float)
           (fun _ => Gives 111) "bolt://neo4j:7687" "/neo4j" 7687 2 lit_2_0 eq_refl).
Defined.

Lemma attempts_ko_numbered `{DelayOps D} (sock : nat -> answer Z)
    (host : string) (port : Z) a rng mx (d : D) c :
  probe_ok (sock c) = false ->
  exists template args,
    Startup.attempts sock (a :: rng) host port mx d c
    = let sleep := a <? mx - 1 in
      let rest := Startup.attempts sock rng host port mx
                    (if sleep then next_delay d else d) (S c) in
      Run (value rest)
          (Connect host port
           :: Log WARNING template (AInt (a + 1) :: AInt mx :: args)
           :: (if sleep then [Sleep d] else []) ++ events rest)%list
          (ncalls rest).
Proof.
  intros Hko. cbn.
  unfold mbind, M_bind, bind, try_except, Startup.connect_ex, external. cbn.
  destruct (sock c) as [code|e]; cbn in *.
  - destruct (code =? 0) eqn:Hc.
    { apply Z.eqb_eq in Hc. subst code. discriminate. }
    cbn. eexists _, _. destruct (a <? mx - 1); cbn; reflexivity.
  - eexists _, _. destruct (a <? mx - 1); cbn; reflexivity.
Qed.

Lemma attempts_warning_numbers `{DelayOps D} (sock : nat -> answer Z)
    (host : string) (port mx : Z) (n : nat) : forall a (d : D) c,
  let tr := events (Startup.attempts sock (Z.of_nat <$> seq a n) host port mx d c) in
  attempt_numbers tr = (fun j => (Z.of_nat j + 1, mx)) <$> seq a (warnings tr).
Proof.
  induction n as [|n IH]; intros a d c; cbv zeta; cbn [seq fmap list_fmap].
  - rewrite attempts_nil. reflexivity.
  - destruct (probe_ok (sock c)) eqn:Hc.
    + rewrite attempts_ok by exact Hc. reflexivity.
    + destruct (attempts_ko_numbered sock host port (Z.of_nat a)
                  (Z.of_nat <$> seq (S a) n) mx d c Hc) as (t & args & ->).
      cbv zeta. cbn [events].
      specialize (IH (S a) (if Z.of_nat a <? mx - 1 then next_delay d else d) (S c)).
      cbv zeta in IH.
      set (rest := events (Startup.attempts sock (Z.of_nat <$> seq (S a) n) host port mx
                             (if Z.of_nat a <? mx - 1 then next_delay d else d) (S c))) in *.
      clearbody rest. unfold attempt_numbers, warnings in *.
      destruct (Z.of_nat a <? mx - 1);
        cbn [app omap list_omap List.filter is_warning length seq fmap list_fmap];
        rewrite IH; reflexivity.
Qed.

(** X4.  The warnings of a run are numbered from 1 in steps of 1, and each
    carries [max_retries] as the total: the i-th failed attempt is logged as
    "attempt i/max_retries". *)
Theorem warnings_carry_attempt_numbers `{DelayOps D}
    (sock : nat -> answer Z) (uri : string) (N : Z) (d : D) :
  let tr := events (start (Startup.wait_for_neo4j sock uri N d)) in
  attempt_numbers tr = (fun j => (Z.of_nat j + 1, N)) <$> seq 0 (warnings tr).
Proof.
  cbv zeta. destruct (Startup.extract_host_port uri) as [e|[host port]] eqn:Hparse.
  - rewrite (wait_for_neo4j_parse_error sock uri N d e Hparse). reflexivity.
  - unfold start, Startup.wait_for_neo4j. rewrite Hparse.
    erewrite bind_value by reflexivity. cbn [events emit].
    unfold Py.range.
    exact (attempts_warning_numbers sock host port N (Z.to_nat N) 0 d 0).
Qed.

(** ** More on the delays *)

Lemma sleeps_are_delays_bounded `{DelayOps D}
    (sock : nat -> answer Z) (uri : string) (N : Z) (d : D) :
  exists k, (k <= Z.to_nat N - 1)%nat
            /\ sleeps (events (start (Startup.wait_for_neo4j sock uri N d))) = delays d k.
Proof.
  destruct (Startup.extract_host_port uri) as [e|[host port]] eqn:Hparse.
  - exists 0%nat. rewrite (wait_for_neo4j_parse_error sock uri N d e Hparse).
    split; [lia|reflexivity].
  - destruct (wait_for_neo4j_run sock host port uri N d Hparse) as (_ & _ & _ & Hs & _).
    eexists. split; [|exact Hs].
    pose proof (attempts_made_le sock 0 (Z.to_nat N)). lia.
Qed.

Lemma total_value_delays (k : nat) : forall d : float,
  (0 <? d)%float = true ->
  (d <=? 10)%float = true ->
  exists first total : Q,
    float_value d = Some first
    /\ total_value (delays d k) = Some total
    /\ (first * inject_Z (Z.of_nat k) <= total)%Q
    /\ (total <= 10 * inject_Z (Z.of_nat k))%Q.
Proof.
  induction k as [|k IH]; intros d Hpos Hle.
  - destruct (float_value_range d Hpos Hle) as (q & Hq & _ & _).
    exists q, 0%Q. split; [exact Hq|]. split; [reflexivity|].
    change (inject_Z (Z.of_nat 0)) with 0%Q. split; lra.
  - destruct (next_delay_b64 d Hpos Hle) as (Hpos' & Hle' & Hmono).
    destruct (IH (next_delay d) Hpos' Hle') as (q' & t & Hq' & Ht & Hlo & Hhi).
    destruct (float_value_range d Hpos Hle) as (q & Hq & Hq0 & Hq10).
    destruct (float_value_le d (next_delay d) Hpos Hmono Hle')
      as (p1 & p2 & Hp1 & Hp2 & Hp).
    rewrite Hq in Hp1. rewrite Hq' in Hp2.
    injection Hp1 as <-. injection Hp2 as <-.
    exists q, (q + t)%Q. split; [exact Hq|].
    split; [cbn [delays total_value]; rewrite Hq, Ht; reflexivity|].
    rewrite Nat2Z.inj_succ. unfold Z.succ. rewrite inject_Z_plus.
    set (n := inject_Z (Z.of_nat k)) in *.
    assert (Hn : (0 <= n)%Q).
    { subst n. change 0%Q with (inject_Z 0). rewrite <- Zle_Qle. lia. }
    change (inject_Z 1) with 1%Q.
    assert ((q * n <= q' * n)%Q) by (apply Qmult_le_compat_r; assumption).
    split; lra.
Qed.

(** X5.  Whatever the initial delay, provided it is a number below plus
    infinity (above the cap, zero or negative alike), every delay slept
    after the first one is at most 10: the cap applies from the first update
    on. *)
Theorem later_delays_capped_binary64
    (sock : nat -> answer Z) (uri : string) (N : Z) (d0 : float) (i : nat) (x : float) :
  (d0 <? infinity)%float = true ->
  sleeps (events (start (Startup.wait_for_neo4j sock uri N d0))) !! S i = Some x ->
  (x <=? 10)%float = true.
Proof.
  intros Hd0.
  assert (Hnan : Prim2SF d0 <> S754_nan).
  { intros Hn. rewrite ltb_spec, Hn in Hd0. discriminate. }
  destruct (sleeps_are_delays sock uri N d0) as [k ->].
  intros Hx. apply delays_lookup in Hx. subst x.
  apply delay_after_capped_b64. exact Hnan.
Qed.

Lemma later_delays_capped_binary64_witness :
  sleeps (events (start (Startup.wait_for_neo4j
                           (fun _ => Gives 111) "db:7687" 3 20%float))) !! 1%nat
  = Some 10%float
  /\ (10 <=? 10)%float = true.
Proof.
  split; [vm_compute; reflexivity|].
  exact (later_delays_capped_binary64
           (fun _ => Gives 111) "db:7687" 3 20%float 0 10%float eq_refl eq_refl).
Defined.

(** X6.  With a binary64 initial delay in (0, 10] and
    [max_retries = N >= 1], the driver sleeps at most [N - 1] times, every
    delay is a finite number, and the time slept in all (the sum of the
    real values of the delays) lies between the initial delay times the
    number of sleeps and 10 times that number; so it never sleeps more than
    [10 * (N - 1)] in all. *)
Theorem total_wait_bounded_binary64
    (sock : nat -> answer Z) (uri : string) (N : Z) (d0 : float) :
  (0 <? d0)%float = true ->
  (d0 <=? 10)%float = true ->
  1 <= N ->
  let slept := sleeps (events (start (Startup.wait_for_neo4j sock uri N d0))) in
  Z.of_nat (length slept) <= N - 1
  /\ exists first total : Q,
       float_value d0 = Some first
       /\ total_value slept = Some total
       /\ (first * inject_Z (Z.of_nat (length slept)) <= total)%Q
       /\ (total <= 10 * inject_Z (Z.of_nat (length slept)))%Q
       /\ (total <= 10 * inject_Z (N - 1))%Q.
Proof.
  intros Hpos Hle HN slept.
  destruct (sleeps_are_delays_bounded sock uri N d0) as (k & Hk & Hs).
  fold slept in Hs. rewrite Hs, length_delays.
  destruct (total_value_delays k d0 Hpos Hle) as (q & t & Hq & Ht & Hlo & Hhi).
  split; [lia|]. exists q, t.
  split; [exact Hq|]. split; [exact Ht|]. split; [exact Hlo|]. split; [exact Hhi|].
  apply Qle_trans with (10 * inject_Z (Z.of_nat k))%Q; [exact Hhi|].
  apply Qmult_le_l; [reflexivity|]. rewrite <- Zle_Qle. lia.
Qed.

Lemma total_wait_bounded_binary64_witness :
  let slept := sleeps (events (start (Startup.wait_for_neo4j
                                        (fun _ => Gives 111) "db:7687" 30 2%float))) in
  exists first total : Q,
    float_value 2%float = Some first
    /\ total_value slept = Some total
    /\ (total <= 10 * inject_Z 29)%Q.
Proof.
  destruct (total_wait_bounded_binary64
              (fun _ => Gives 111) "db:7687" 30 2%float eq_refl eq_refl ltac:(lia))
    as (_ & q & t & Hq & Ht & _ & _ & Hhi).
  exists q, t. split; [exact Hq|]. split; [exact Ht|exact Hhi].
Defined.

(** ** More on host and port extraction *)

Lemma contains_app (c : ascii) (h p : string) :
  Py.contains c (h ++ String c p) = true.
Proof.
  induction h as [|a h IH].
  - change ("" ++ String c p) with (String c p). cbn [Py.contains].
    rewrite Ascii.eqb_refl. reflexivity.
  - change (String a h ++ String c p) with (String a (h ++ String c p)).
    cbn [Py.contains]. destruct (Ascii.eqb a c); [reflexivity|exact IH].
Qed.

Lemma cut_app (sep : ascii) (h p : string) :
  Py.contains sep h = false -> Py.cut sep (h ++ String sep p) = Some (h, p).
Proof.
  induction h as [|a h IH].
  - change ("" ++ String sep p) with (String sep p). cbn [Py.cut].
    intros _. rewrite Ascii.eqb_refl. reflexivity.
  - change (String a h ++ String sep p) with (String a (h ++ String sep p)).
    cbn [Py.contains Py.cut].
    destruct (Ascii.eqb a sep); [discriminate|]. intros Hh. rewrite (IH Hh). reflexivity.
Qed.

Lemma startswith_cons (c : ascii) (p s : string) :
  Py.startswith s (String c p) = true ->
  exists s', s = String c s' /\ Py.startswith s' p = true.
Proof.
  unfold Py.startswith. destruct s as [|b s]; cbn; [discriminate|].
  destruct (ascii_dec c b) as [<-|]; [|discriminate]. intros Hp. eauto.
Qed.

(** X7.  The host is the text before the first colon and the port is the
    whole text after it: for a URI [h:p] where [h] has no colon and that does
    not start with ['bolt://'], the result is host [h] and port [int(p)], and
    [ValueError] when [p] is not an integer literal (as when [p] itself
    contains a colon). *)
Theorem extract_splits_at_first_colon (h p : string) :
  Py.contains ":" h = false ->
  Py.startswith (h ++ ":" ++ p) "bolt://" = false ->
  Startup.extract_host_port (h ++ ":" ++ p)
  = match Py.int p with
    | Some port => inr (h, port)
    | None => inl ValueError
    end.
Proof.
  intros Hh Hscheme. unfold Startup.extract_host_port. rewrite Hscheme.
  change (":" ++ p) with (String ":" p).
  rewrite contains_app. unfold Py.split1. rewrite (cut_app ":" h p Hh).
  destruct (Py.int p); reflexivity.
Qed.

Lemma extract_splits_at_first_colon_witness :
  Startup.extract_host_port "::1:7687" = inl ValueError
  /\ Startup.extract_host_port "db: 7_687 " = inr ("db", 7687).
Proof.
  split.
  - exact (extract_splits_at_first_colon "" ":1:7687" eq_refl eq_refl).
  - exact (extract_splits_at_first_colon "db" " 7_687 " eq_refl eq_refl).
Defined.

(** X8.  For every URI that starts with ['bolt://'], the host extracted
    starts with a slash: the slice keeps the last character of the
    prefix. *)
Theorem bolt_scheme_leaves_slash_in_host (uri host : string) (port : Z) :
  Py.startswith uri "bolt://" = true ->
  Startup.extract_host_port uri = inr (host, port) ->
  exists rest, host = String "/" rest.
Proof.
  intros Hscheme. unfold Startup.extract_host_port. rewrite Hscheme.
  apply startswith_cons in Hscheme as (s1 & -> & Hscheme).
  apply startswith_cons in Hscheme as (s2 & -> & Hscheme).
  apply startswith_cons in Hscheme as (s3 & -> & Hscheme).
  apply startswith_cons in Hscheme as (s4 & -> & Hscheme).
  apply startswith_cons in Hscheme as (s5 & -> & Hscheme).
  apply startswith_cons in Hscheme as (s6 & -> & Hscheme).
  apply startswith_cons in Hscheme as (rest & -> & _).
  cbn [Py.slice_from].
  cbn [Py.contains Ascii.eqb Bool.eqb]. unfold Py.split1. cbn [Py.cut Ascii.eqb Bool.eqb].
  destruct (Py.contains ":" rest).
  - destruct (Py.cut ":" rest) as [[l r]|].
    + destruct (Py.int r); [|discriminate]. intros [= <- _]. eauto.
    + discriminate.
  - intros [= <- _]. eauto.
Qed.

Lemma bolt_scheme_leaves_slash_in_host_witness : exists rest, "/10.0.0.5" = String "/" rest.
Proof.
  exact (bolt_scheme_leaves_slash_in_host "bolt://10.0.0.5:7688" "/10.0.0.5" 7688
           eq_refl eq_refl).
Defined.

(** ** The sequencer of [startup.py] *)

Lemma startup_main_run `{DelayOps D}
    (sock : nat -> answer Z) (uvicorn_run : answer unit) (neo4j_uri : string) :
  start (Startup.main sock uvicorn_run neo4j_uri)
  = let w := start (Startup.wait_for_neo4j sock neo4j_uri 30 lit_2_0) in
    prepend [Log INFO "Starting Graphiti Knowledge Server initialization" []]
      match value w with
      | Return true =>
          prepend (events w)
            match uvicorn_run with
            | Gives _ =>
                Run (Return tt)
                    [Log INFO "Neo4j is ready, starting server" []; Call "uvicorn.run"]
                    (S (ncalls w))
            | Throws e =>
                Run (Exit 1)
                    [Log INFO "Neo4j is ready, starting server" []; Call "uvicorn.run";
                     Log ERROR "Failed to start server: {e}" [AExc e]]
                    (S (ncalls w))
            end
      | Return false =>
          prepend (events w)
            (Run (Exit 1) [Log ERROR "Failed to connect to Neo4j, exiting" []] (ncalls w))
      | Raise e => Run (Raise e) (events w) (ncalls w)
      | Exit c => Run (Exit c) (events w) (ncalls w)
      end.
Proof.
  cbv zeta. unfold Startup.main, start.
  erewrite bind_prepend by reflexivity. cbn [events ncalls emit]. f_equal. cbv beta.
  destruct (Startup.wait_for_neo4j sock neo4j_uri 30 lit_2_0 0%nat)
    as [[ready|e|c] evs k] eqn:Hw; cbn [value events ncalls].
  - rewrite (bind_prepend (Startup.wait_for_neo4j sock neo4j_uri 30 lit_2_0) _ 0%nat ready k)
      by (rewrite Hw; reflexivity).
    rewrite Hw. cbn [events]. f_equal.
    destruct ready, uvicorn_run as [[]|e]; reflexivity.
  - unfold mbind, M_bind, bind. rewrite Hw. reflexivity.
  - unfold mbind, M_bind, bind. rewrite Hw. reflexivity.
Qed.

(** X9.  The startup script starts the server exactly when a host and a
    port are extracted from the URI and one of the first 30 probes succeeds;
    it ends with status 0 exactly when, in addition, [uvicorn.run] returns,
    and with status 1 in every other case. *)
Theorem startup_exit_status `{DelayOps D}
    (sock : nat -> answer Z) (uvicorn_run : answer unit) (neo4j_uri : string) :
  let r := start (Startup.main sock uvicorn_run neo4j_uri) in
  let dependency_ready :=
    (exists host port, Startup.extract_host_port neo4j_uri = inr (host, port))
    /\ (exists j, (j < 30)%nat /\ probe_ok (sock j) = true) in
  (In (Call "uvicorn.run") (events r) <-> dependency_ready)
  /\ (exit_status (value r) = 0 <-> dependency_ready /\ uvicorn_run = Gives tt)
  /\ (exit_status (value r) = 0 \/ exit_status (value r) = 1).
Proof.
  cbv zeta. rewrite startup_main_run. cbv zeta.
  pose proof (returns_true_iff_some_probe_succeeds_aux sock neo4j_uri 30 lit_2_0) as Hiff.
  change (Z.to_nat 30) with 30%nat in Hiff. rewrite <- Hiff. clear Hiff.
  destruct (Startup.extract_host_port neo4j_uri) as [e|[host port]] eqn:Hparse.
  - rewrite (wait_for_neo4j_parse_error sock neo4j_uri 30 lit_2_0 e Hparse).
    cbn. split; [|split; [|right; reflexivity]].
    + split; [intros [?|[]]; discriminate|discriminate].
    + split; [discriminate|intros [? _]; discriminate].
  - pose proof (wait_for_neo4j_driver_events sock neo4j_uri host port 30 lit_2_0 Hparse)
      as Hall.
    rewrite Forall_forall in Hall.
    assert (Hnocall : ~ In (Call "uvicorn.run")
                        (events (start (Startup.wait_for_neo4j sock neo4j_uri 30 lit_2_0)))).
    { intros Hin. apply list_elem_of_In in Hin. exact (Hall _ Hin). }
    destruct (wait_for_neo4j_run sock host port neo4j_uri 30 lit_2_0 Hparse) as (Hv & _).
    rewrite Hv in *.
    destruct (succeeds sock 0 (Z.to_nat 30)), uvicorn_run as [[]|e];
      unfold prepend; cbn [value events ncalls exit_status app In];
      rewrite in_app_iff; cbn [In];
      (split; [|split; [|auto]]);
      (split; [intros Hl|intros Hr]);
      repeat match goal with
             | H : _ \/ _ |- _ => destruct H
             | H : _ /\ _ |- _ => destruct H
             | H : False |- _ => destruct H
             end;
      try discriminate; try contradiction; try reflexivity; auto 10.
Qed.

(** ** The sequencer of [main.py] on a malformed URI *)

Lemma extract_host_port_error (uri : string) (e : exception) :
  Startup.extract_host_port uri = inl e -> e = ValueError.
Proof.
  unfold Startup.extract_host_port.
  destruct (Py.contains ":" _); [|discriminate].
  destruct (Py.split1 _ ":") as [|host [|port_str [|]]]; try (intros [= <-]; reflexivity).
  destruct (Py.int port_str); [discriminate|]. intros [= <-]. reflexivity.
Qed.

(** X10.  The only error of the extraction is [ValueError], and [lifespan]
    does not catch it: on a URI whose port is not an integer the lifespan
    raises before logging anything, never calls [initialize_graphiti] and
    never reaches its [yield]. *)
Theorem lifespan_aborts_on_malformed_uri `{DelayOps D}
    (sock : nat -> answer Z) (initialize_graphiti : answer unit)
    (neo4j_uri : string) (e : exception) :
  Main.extract_host_port neo4j_uri = inl e ->
  e = ValueError
  /\ start (Main.lifespan sock initialize_graphiti neo4j_uri) = Run (Raise ValueError) [] 0.
Proof.
  intros Hparse. rewrite extract_host_port_same in Hparse.
  pose proof (extract_host_port_error neo4j_uri e Hparse) as ->.
  split; [reflexivity|].
  pose proof (wait_for_neo4j_parse_error sock neo4j_uri 30 lit_2_0 ValueError Hparse)
    as Hw.
  unfold Main.lifespan, start in *. rewrite wait_for_neo4j_same.
  rewrite bind_raise with (e := ValueError); rewrite Hw; reflexivity.
Qed.

Lemma lifespan_aborts_on_malformed_uri_witness :
  start (Main.lifespan (D:=float) (fun _ => Gives 0) (Gives tt) "bolt://neo4j:bolt")
  = Run (Raise ValueError) [] 0.
Proof.
  exact (proj2 (lifespan_aborts_on_malformed_uri (D:=float)
                  (fun _ => Gives 0) (Gives tt) "bolt://neo4j:bolt" ValueError eq_refl)).
Defined.

(** ** One request guarded by [try] *)

Section ProbePattern.
Context {E A X : Type}.
Variable proj : E -> option X.

Lemma probe_pattern_run (ev : E) (net : nat -> answer Z)
    (K : Z -> M E A) (H : exception -> M E A) (n : nat) :
  try_except (external ev net ≫= K) H n
  = match net n with
    | Gives s =>
        match value (K s (S n)) with
        | Raise e =>
            prepend (ev :: events (K s (S n))) (H e (ncalls (K s (S n))))
        | _ => prepend [ev] (K s (S n))
        end
    | Throws e => prepend [ev] (H e (S n))
    end.
Proof.
  unfold try_except, mbind, M_bind, bind, external, prepend.
  destruct (net n) as [s|e]; cbn [value events ncalls]; [|reflexivity].
  destruct (K s (S n)) as [[v|e|c] evs n']; reflexivity.
Qed.

Lemma omap_silent (m : M E A) (n : nat) :
  emits (fun ev => proj ev = None) m -> omap proj (events (m n)) = [].
Proof.
  intros Hm. specialize (Hm n). induction Hm as [|ev evs Hev _ IH]; [reflexivity|].
  cbn. rewrite Hev. exact IH.
Qed.

Lemma omap_probe_pattern (ev : E) (x : X) (net : nat -> answer Z)
    (K : Z -> M E A) (H : exception -> M E A) (n : nat) :
  proj ev = Some x ->
  (forall s, emits (fun ev => proj ev = None) (K s)) ->
  (forall e, emits (fun ev => proj ev = None) (H e)) ->
  omap proj (events (try_except (external ev net ≫= K) H n)) = [x].
Proof.
  intros Hev HK HH. rewrite probe_pattern_run.
  destruct (net n) as [s|e].
  - destruct (value (K s (S n))); unfold prepend; cbn [events];
      rewrite ?app_comm_cons, ?omap_app; cbn [omap list_omap]; rewrite Hev;
      rewrite ?(omap_silent (K s)), ?(omap_silent (H _)) by auto; reflexivity.
  - unfold prepend. cbn [events app omap list_omap]. rewrite Hev.
    rewrite (omap_silent (H e)) by auto. reflexivity.
Qed.

End ProbePattern.

Lemma for_in_omap {E X S Y} (proj : E -> option Y) (f : X -> Y)
    (body : X -> S -> M E S) (xs : list X) :
  (forall x acc k, exists v, value (body x acc k) = Return v) ->
  (forall x acc k, omap proj (events (body x acc k)) = [f x]) ->
  forall acc n, omap proj (events (for_in xs body acc n)) = f <$> xs.
Proof.
  intros Hret Hproj. induction xs as [|x xs IH]; intros acc n; cbn [for_in fmap list_fmap].
  - reflexivity.
  - destruct (Hret x acc n) as [v Hv].
    rewrite (bind_fn_value _ _ _ _ _ Hv eq_refl). unfold prepend. cbn [events].
    rewrite omap_app, Hproj, IH. reflexivity.
Qed.

(** ** [check_health] *)

(** X11.  [check_health] sends exactly one GET, to
    [http://localhost:8000/healthcheck], prints exactly one line, returns
    whether the status was 200 and never raises.  The line "Server returned
    status code" is printed for the statuses 201 to 299 only: any other
    status than 200 arrives as an [HTTPError] and is printed as a failed
    check. *)
Theorem check_health_one_request_one_line (target : answer Z) (n : nat) :
  Healthcheck.check_health target n
  = Run (Return (is_200 target))
        [Get "http://localhost:8000/healthcheck";
         match target with
         | Gives status =>
             if status =? 200 then Print "Server is healthy" []
             else if (200 <? status) && (status <? 300)
                  then Print "Server returned status code: {response.getcode()}"
                             [AInt status]
                  else Print "Health check failed: {e}" [AExc (HTTPError status)]
         | Throws e => Print "Health check failed: {e}" [AExc e]
         end]
        (S n).
Proof.
  destruct target as [status|e]; [|reflexivity].
  unfold Healthcheck.check_health, Healthcheck.urlopen_getcode, is_200.
  unfold try_except, mbind, M_bind, bind, external. cbn [value events ncalls].
  destruct (Z.eq_dec status 200) as [->|Hne]; [reflexivity|].
  assert (Hs : (status =? 200) = false) by (apply Z.eqb_neq; exact Hne).
  destruct ((200 <=? status) && (status <? 300)) eqn:Hrange.
  - assert (Hstrict : (200 <? status) && (status <? 300) = true) by lia.
    cbn [value events ncalls mret M_ret ret]. rewrite Hs, Hstrict. reflexivity.
  - assert (Hstrict : (200 <? status) && (status <? 300) = false) by lia.
    cbn [value events ncalls raise]. rewrite Hs, Hstrict. reflexivity.
Qed.

(** ** More on the checks of [verify_deployment.py] *)

Lemma gets_of_tlogs (tr : list tool_event) : Forall is_tlog tr -> gets tr = [].
Proof.
  induction 1 as [|ev tr Hev _ IH]; [reflexivity|].
  destruct ev; try contradiction. exact IH.
Qed.

Lemma check_environment_variables_logs (environ : gmap string string) :
  emits is_tlog (Verify.check_environment_variables environ).
Proof.
  unfold Verify.check_environment_variables, Verify.getitem. cbv zeta.
  repeat emits_step; exact I.
Qed.

Lemma check_neo4j_connection_logs (uri user password : string) :
  emits is_tlog (Verify.check_neo4j_connection uri user password).
Proof.
  unfold Verify.check_neo4j_connection. repeat emits_step; exact I.
Qed.

Lemma env_results_lookup (environ : gmap string string) (var : string) :
  env_results environ !! var
  = if bool_decide (var ∈ ["OPENAI_API_KEY"; "NEO4J_USER"; "NEO4J_PASSWORD";
                           "MODEL_NAME"; "EMBEDDING_MODEL_NAME"; "SEMAPHORE_LIMIT"])
    then Some (var_set environ var) else None.
Proof.
  unfold env_results. cbn [foldl].
  rewrite !lookup_insert, lookup_empty.
  repeat match goal with
         | |- context [decide (?k = var)] =>
             destruct (decide (k = var)) as [<-|];
             [rewrite bool_decide_eq_true_2; [reflexivity|];
              rewrite !elem_of_cons; repeat first [left; reflexivity | right]|]
         end.
  rewrite bool_decide_eq_false_2; [reflexivity|].
  rewrite !elem_of_cons, elem_of_nil. intuition congruence.
Qed.

(** X12.  [check_environment_variables] makes no external call and emits
    log lines only; the dictionary it returns has exactly the six names of
    the two lists as keys, each mapped to whether the variable is present
    and not blank. *)
Theorem environment_check_dictionary (environ : gmap string string) (n : nat) :
  let r := Verify.check_environment_variables environ n in
  exists results : gmap string bool,
    value r = Return results
    /\ ncalls r = n
    /\ Forall is_tlog (events r)
    /\ forall var,
         results !! var
         = if bool_decide (var ∈ ["OPENAI_API_KEY"; "NEO4J_USER"; "NEO4J_PASSWORD";
                                  "MODEL_NAME"; "EMBEDDING_MODEL_NAME"; "SEMAPHORE_LIMIT"])
           then Some (var_set environ var) else None.
Proof.
  cbv zeta. destruct (check_environment_variables_run environ n) as [Hv Hn].
  exists (env_results environ).
  split; [exact Hv|]. split; [exact Hn|].
  split; [apply check_environment_variables_logs|apply env_results_lookup].
Qed.

Lemma lstrip_blank (s : string) : blank s = true -> Py.lstrip_by Py.isspace s = "".
Proof.
  induction s as [|a s IH]; cbn [blank Py.lstrip_by]; [reflexivity|].
  destruct (Py.isspace a); [exact IH|discriminate].
Qed.

Lemma blank_lstrip (s : string) :
  blank (Py.lstrip_by Py.isspace s) = true -> blank s = true.
Proof.
  induction s as [|a s IH]; cbn [blank Py.lstrip_by]; [reflexivity|].
  destruct (Py.isspace a) eqn:Ha; [exact IH|].
  cbn [blank]. rewrite Ha. discriminate.
Qed.

Lemma rstrip_empty (s : string) :
  Py.rstrip_by Py.isspace s = "" <-> blank s = true.
Proof.
  induction s as [|a s IH]; cbn [blank Py.rstrip_by]; [tauto|].
  destruct (Py.rstrip_by Py.isspace s) as [|b t].
  - destruct (Py.isspace a); cbn [andb].
    + split; [intros _; apply IH; reflexivity|reflexivity].
    + split; discriminate.
  - split; [discriminate|]. intros Hb. apply andb_true_iff in Hb as [_ Hb].
    apply IH in Hb. discriminate.
Qed.

Lemma strip_empty (s : string) : Py.strip s = "" <-> blank s = true.
Proof.
  unfold Py.strip. rewrite rstrip_empty. split; [apply blank_lstrip|].
  intros Hb. rewrite (lstrip_blank s Hb). reflexivity.
Qed.

(** X13.  A variable is reported as missing exactly when it is unset or its
    value is empty or made of whitespace only. *)
Theorem blank_value_is_missing (environ : gmap string string) (var : string) :
  var_set environ var = false
  <-> environ !! var = None
      \/ exists v, environ !! var = Some v /\ blank v = true.
Proof.
  unfold var_set. destruct (environ !! var) as [v|].
  - rewrite negb_false_iff, String.eqb_eq, strip_empty. split.
    + intros Hb. right. eauto.
    + intros [?|(v' & [= <-] & Hb)]; [discriminate|exact Hb].
  - split; [intros _; left; reflexivity|reflexivity].
Qed.

(** X14.  [check_neo4j_connection] never reaches the network: it makes no
    external call and emits log lines only, and it returns whether the URI
    starts with ['bolt://'], whatever the user and the password. *)
Theorem neo4j_check_is_offline (uri user password : string) (n : nat) :
  let r := Verify.check_neo4j_connection uri user password n in
  value r = Return (Py.startswith uri "bolt://")
  /\ ncalls r = n
  /\ Forall is_tlog (events r)
  /\ gets (events r) = [].
Proof.
  cbv zeta. destruct (check_neo4j_connection_run uri user password n) as [Hv Hn].
  pose proof (check_neo4j_connection_logs uri user password n) as Hlogs.
  split; [exact Hv|]. split; [exact Hn|]. split; [exact Hlogs|].
  apply gets_of_tlogs. exact Hlogs.
Qed.

Lemma check_server_health_gets (net : nat -> answer Z) (url : string) (n : nat) :
  gets (events (Verify.check_server_health net url n)) = [url ++ "/healthcheck"].
Proof.
  unfold Verify.check_server_health, Verify.get_status, gets.
  apply omap_probe_pattern; [reflexivity| |]; repeat emits_step; reflexivity.
Qed.

Lemma check_api_endpoints_gets (net : nat -> answer Z) (url : string) (n : nat) :
  gets (events (Verify.check_api_endpoints net url n)) = [url ++ "/"; url ++ "/healthcheck"].
Proof.
  unfold Verify.check_api_endpoints, Verify.get_status, gets. cbv zeta.
  apply (for_in_omap _ (fun x : string * string => url ++ x.2)).
  - intros [name endpoint] acc k. rewrite probe_pattern_run.
    destruct (net k) as [s|e]; [destruct (s =? 200)|]; eexists; reflexivity.
  - intros [name endpoint] acc k.
    apply omap_probe_pattern; [reflexivity| |]; repeat emits_step; reflexivity.
Qed.

(** X15.  [check_api_endpoints] always sends two GETs, first to the root
    and then to [/healthcheck] of the base URL, whatever the first one
    yields, and returns a dictionary with the two keys [root] and
    [healthcheck], each telling whether its GET answered 200. *)
Theorem endpoints_probed_in_order (net : nat -> answer Z) (url : string) (n : nat) :
  let r := Verify.check_api_endpoints net url n in
  gets (events r) = [url ++ "/"; url ++ "/healthcheck"]
  /\ ncalls r = S (S n)
  /\ value r = Return (<["healthcheck" := is_200 (net (S n))]>
                        (<["root" := is_200 (net n)]> ∅)).
Proof.
  cbv zeta. destruct (check_api_endpoints_run net url n) as [Hv Hn].
  split; [apply check_api_endpoints_gets|]. split; [exact Hn|exact Hv].
Qed.

Lemma main_events (environ : gmap string string) (net : nat -> answer Z) :
  events (start (Verify.main environ net))
  = (TLog INFO "Starting Graphiti deployment verification" []
     :: events (Verify.check_environment_variables environ 0%nat)
     ++ events (Verify.check_neo4j_connection
                  (default "bolt://neo4j:7687" (environ !! "NEO4J_URI"))
                  (default "neo4j" (environ !! "NEO4J_USER"))
                  (default "" (environ !! "NEO4J_PASSWORD")) 0%nat)
     ++ events (Verify.check_server_health net "http://localhost:8000" 0%nat)
     ++ events (Verify.check_api_endpoints net "http://localhost:8000" 1%nat)
     ++ report
          (forallb (var_set environ) ["OPENAI_API_KEY"; "NEO4J_USER"; "NEO4J_PASSWORD"])
          (Py.startswith (default "bolt://neo4j:7687" (environ !! "NEO4J_URI")) "bolt://")
          (is_200 (net 0%nat))
          (forallb is_200 [net 1%nat; net 2%nat]))%list.
Proof.
  unfold Verify.main, start.
  erewrite bind_prepend by reflexivity. cbv beta.
  destruct (check_environment_variables_run environ 0) as [Hv1 Hn1].
  rewrite (bind_prepend _ _ _ _ _ Hv1 Hn1). cbv beta zeta.
  match goal with |- context [Verify.check_neo4j_connection ?u ?a ?b] =>
    destruct (check_neo4j_connection_run u a b 0) as [Hv2 Hn2] end.
  rewrite (bind_prepend _ _ _ _ _ Hv2 Hn2). cbv beta zeta.
  destruct (check_server_health_run net "http://localhost:8000" 0) as [Hv3 Hn3].
  rewrite (bind_prepend _ _ _ _ _ Hv3 Hn3). cbv beta zeta.
  destruct (check_api_endpoints_run net "http://localhost:8000" 1) as [Hv4 Hn4].
  rewrite (bind_prepend _ _ _ _ _ Hv4 Hn4). cbv beta zeta.
  clear Hv1 Hn1 Hv2 Hn2 Hv3 Hn3 Hv4 Hn4.
  rewrite required_env_ok_eq, all_values_two.
  generalize (events (Verify.check_environment_variables environ 0%nat)).
  match goal with |- context [events (Verify.check_neo4j_connection ?u ?a ?b 0%nat)] =>
    generalize (events (Verify.check_neo4j_connection u a b 0%nat)) end.
  generalize (events (Verify.check_server_health net "http://localhost:8000" 0%nat)).
  generalize (events (Verify.check_api_endpoints net "http://localhost:8000" 1%nat)).
  generalize (forallb (var_set environ) ["OPENAI_API_KEY"; "NEO4J_USER"; "NEO4J_PASSWORD"]).
  generalize (Py.startswith (default "bolt://neo4j:7687" (environ !! "NEO4J_URI")) "bolt://").
  cbn [forallb id].
  generalize (is_200 (net 0%nat)), (is_200 (net 1%nat)), (is_200 (net 2%nat)).
  intros a2 a1 h u r e4 e3 e2 e1.
  destruct a2, a1, h, u, r; vm_compute; reflexivity.
Qed.

Lemma gets_app (l1 l2 : list tool_event) : gets (l1 ++ l2) = (gets l1 ++ gets l2)%list.
Proof. apply omap_app. Qed.

Lemma gets_report (req neo sh api : bool) : gets (report req neo sh api) = [].
Proof. destruct req, neo, sh, api; reflexivity. Qed.

(** X16.  Whatever the environment and the network do, a verification run
    sends exactly three GETs, in this order: the liveness GET of
    [/healthcheck], then the root, then [/healthcheck] again.  No failed
    check cuts the run short. *)
Theorem main_sends_three_gets (environ : gmap string string) (net : nat -> answer Z) :
  gets (events (start (Verify.main environ net)))
  = ["http://localhost:8000/healthcheck";
     "http://localhost:8000/";
     "http://localhost:8000/healthcheck"].
Proof.
  rewrite main_events.
  change (gets (?ev :: ?l)) with (gets l). rewrite !gets_app.
  rewrite (gets_of_tlogs _ (check_environment_variables_logs environ 0%nat)).
  rewrite (gets_of_tlogs _ (check_neo4j_connection_logs _ _ _ 0%nat)).
  rewrite check_server_health_gets, check_api_endpoints_gets, gets_report.
  reflexivity.
Qed.

(** X17.  A verification run ends with the report of its four categories
    (required variables, URI, liveness, endpoints): the banner, one line per
    category, the overall status, and when that is false the troubleshooting
    header followed by one hint for each failed category and none for a
    passed one. *)
Theorem main_ends_with_report (environ : gmap string string) (net : nat -> answer Z) :
  exists checks,
    events (start (Verify.main environ net))
    = (TLog INFO "Starting Graphiti deployment verification" [] :: checks
       ++ report
            (forallb (var_set environ) ["OPENAI_API_KEY"; "NEO4J_USER"; "NEO4J_PASSWORD"])
            (Py.startswith (default "bolt://neo4j:7687" (environ !! "NEO4J_URI")) "bolt://")
            (is_200 (net 0%nat))
            (forallb is_200 [net 1%nat; net 2%nat]))%list.
Proof.
  eexists. rewrite main_events. rewrite !app_assoc. reflexivity.
Qed.

(** ** [test_deployment.py] *)

Lemma for_in_cons_run {E X S} (body : X -> S -> M E S) (x : X) (xs : list X)
    (acc v : S) (n n' : nat) :
  value (body x acc n) = Return v ->
  ncalls (body x acc n) = n' ->
  for_in (x :: xs) body acc n = prepend (events (body x acc n)) (for_in xs body v n').
Proof. intros Hv Hn. cbn [for_in]. apply bind_fn_value; assumption. Qed.

Lemma test_endpoint_run (net : nat -> answer Z) (url description : string) (n : nat) :
  exists template args,
    TestDeployment.test_endpoint net url description n
    = Run (Return (is_200 (net n))) [Requested url; Printed template args] (S n).
Proof.
  unfold TestDeployment.test_endpoint, is_200. rewrite probe_pattern_run.
  destruct (net n) as [s|e]; [destruct (s =? 200)|]; eexists _, _; reflexivity.
Qed.

Lemma test_main_run (net : nat -> answer Z) :
  let successes :=
    (if is_200 (net 0%nat) then 1 else 0) + (if is_200 (net 1%nat) then 1 else 0) in
  exists t1 a1 t2 a2 verdict,
    start (TestDeployment.main net)
    = Run (Return (if is_200 (net 0%nat) && is_200 (net 1%nat) then 0 else 1))
          [Printed "Testing Graphiti deployment..." [];
           Requested "http://localhost:8000/";
           Printed t1 a1;
           Paused 1;
           Requested "http://localhost:8000/healthcheck";
           Printed t2 a2;
           Paused 1;
           Printed "\nResults: {success_count}/{total_count} endpoints working"
                   [AInt successes; AInt 2];
           Printed verdict []]
          2.
Proof.
  cbv zeta.
  destruct (test_endpoint_run net "http://localhost:8000/" "Root endpoint" 0)
    as (t1 & a1 & H1).
  destruct (test_endpoint_run net "http://localhost:8000/healthcheck" "Health check" 1)
    as (t2 & a2 & H2).
  exists t1, a1, t2, a2.
  unfold TestDeployment.main, start. cbv zeta.
  erewrite bind_prepend by reflexivity. cbn [events ncalls emit].
  match goal with |- context [for_in _ ?b _] => set (body := b) end.
  assert (Hbody : forall url description acc k t a,
             TestDeployment.test_endpoint net url description k
             = Run (Return (is_200 (net k))) [Requested url; Printed t a] (S k) ->
             body (url, description) acc k
             = Run (Return (if is_200 (net k) then acc + 1 else acc))
                   [Requested url; Printed t a; Paused 1] (S k)).
  { intros url description acc k t a Hte. subst body. cbv beta iota.
    erewrite bind_prepend by (rewrite Hte; reflexivity). rewrite Hte.
    destruct (is_200 (net k)); reflexivity. }
  clearbody body.
  set (c1 := if is_200 (net 0%nat) then 0 + 1 else 0).
  set (c2 := if is_200 (net 1%nat) then c1 + 1 else c1).
  pose proof (Hbody _ _ 0 _ _ _ H1) as Hb1. fold c1 in Hb1.
  pose proof (Hbody _ _ c1 _ _ _ H2) as Hb2. fold c2 in Hb2.
  match goal with |- context [for_in ?xs body ?acc] =>
    assert (Hloop : for_in xs body acc 0%nat
                    = Run (Return c2)
                          [Requested "http://localhost:8000/"; Printed t1 a1; Paused 1;
                           Requested "http://localhost:8000/healthcheck"; Printed t2 a2;
                           Paused 1]
                          2%nat)
  end.
  { rewrite (for_in_cons_run body _ _ 0 c1 0%nat 1%nat) by (rewrite Hb1; reflexivity).
    rewrite (for_in_cons_run body _ _ c1 c2 1%nat 2%nat) by (rewrite Hb2; reflexivity).
    rewrite Hb1, Hb2. reflexivity. }
  match goal with |- context [for_in ?xs body ?acc ≫= ?k] =>
    rewrite (bind_prepend (for_in xs body acc) k 0%nat c2 2%nat)
      by (rewrite Hloop; reflexivity)
  end.
  rewrite Hloop. subst c1 c2.
  destruct (is_200 (net 0%nat)), (is_200 (net 1%nat)); eexists; reflexivity.
Qed.

(** X18.  [test_endpoint] sends exactly one request to its URL, prints
    exactly one line, returns whether the status was 200, and never raises:
    any exception of the request gives [False]. *)
Theorem test_endpoint_one_request_one_line
    (net : nat -> answer Z) (url description : string) (n : nat) :
  exists template args,
    TestDeployment.test_endpoint net url description n
    = Run (Return (is_200 (net n))) [Requested url; Printed template args] (S n).
Proof. apply test_endpoint_run. Qed.

(** X19.  The test script leaves with status 0 exactly when both requests
    answer 200, and with status 1 otherwise; it never ends on an
    exception. *)
Theorem test_script_exit_code (net : nat -> answer Z) :
  value (start (TestDeployment.script net))
  = Exit (if is_200 (net 0%nat) && is_200 (net 1%nat) then 0 else 1)
  /\ (exit_status (value (start (TestDeployment.script net))) = 0
      <-> is_200 (net 0%nat) = true /\ is_200 (net 1%nat) = true).
Proof.
  destruct (test_main_run net) as (t1 & a1 & t2 & a2 & verdict & Hrun).
  unfold TestDeployment.script, start in *.
  erewrite bind_prepend by (rewrite Hrun; reflexivity).
  unfold prepend, sys_exit. cbn [value exit_status]. split; [reflexivity|].
  destruct (is_200 (net 0%nat)), (is_200 (net 1%nat)); cbn; intuition discriminate.
Qed.

(** X20.  A test run always requests the root and then [/healthcheck],
    even when the first request fails, pauses one second after each
    request, and prints in its results line the number of requests that
    answered 200, out of 2. *)
Theorem test_main_requests_both_and_counts (net : nat -> answer Z) :
  let tr := events (start (TestDeployment.main net)) in
  requested tr = ["http://localhost:8000/"; "http://localhost:8000/healthcheck"]
  /\ pauses tr = [1; 1]
  /\ In ("\nResults: {success_count}/{total_count} endpoints working",
         [AInt ((if is_200 (net 0%nat) then 1 else 0)
                + (if is_200 (net 1%nat) then 1 else 0));
          AInt 2])
        (printed tr).
Proof.
  cbv zeta. destruct (test_main_run net) as (t1 & a1 & t2 & a2 & verdict & ->).
  cbn. split; [reflexivity|]. split; [reflexivity|]. auto 10.
Qed.

(** X21.  The test script and the endpoint check of the verification tool
    agree: on the same base URL they send the same requests in the same
    order, and the test returns 0 exactly when every entry of the
    dictionary of [check_api_endpoints] is true. *)
Theorem test_and_verify_agree_on_endpoints (net : nat -> answer Z) :
  requested (events (start (TestDeployment.main net)))
  = gets (events (Verify.check_api_endpoints net "http://localhost:8000" 0%nat))
  /\ (value (start (TestDeployment.main net)) = Return 0
      <-> exists results,
            value (Verify.check_api_endpoints net "http://localhost:8000" 0%nat)
            = Return results
            /\ Verify.all_values results = true).
Proof.
  destruct (test_main_run net) as (t1 & a1 & t2 & a2 & verdict & ->).
  destruct (check_api_endpoints_run net "http://localhost:8000" 0%nat) as [Hv _].
  rewrite check_api_endpoints_gets, Hv. cbn [value events].
  split; [reflexivity|].
  split.
  - intros Hzero. eexists. split; [reflexivity|]. rewrite all_values_two.
    destruct (is_200 (net 0%nat)), (is_200 (net 1%nat)); try discriminate; reflexivity.
  - intros (results & [= <-] & Hall). rewrite all_values_two in Hall.
    destruct (is_200 (net 0%nat)), (is_200 (net 1%nat)); try discriminate; reflexivity.
Qed.
